(** * pdf_processor_server: a shallow embedding and its properties

    The server offers three PDF operations (text, metadata and page-range
    extraction), each of which validates a path, launches one external
    process and reshapes its output into a result dictionary, plus a
    dispatcher that routes a tool name to one of them.

    Modelling choices.
    - A Python [str] is a [string]; a character is a code point below 256.
    - A Python [dict] is a [gmap] with string keys.
    - The file system and the external tools are a [World]: what
      [Path(..).expanduser().resolve()], [Path.exists()] and
      [subprocess.run] answer.  One call of an operation queries each of
      them at most once, so a world is a plain record of functions.
    - Effects are a writer/error monad [M]: a computation yields either a
      value or a raised exception, together with the list of process
      launches it made, oldest first. *)

From Stdlib Require Import ZArith Ascii.
From stdpp Require Import gmap strings list pretty.

Local Open Scope Z_scope.

(** ** The methods of [str] the server uses *)

Module PyStr.

Definition newline : ascii := "010"%char.
Definition nl : string := String newline "".

(** [s.split(sep)] for a separator of one character. *)
Fixpoint split (sep : ascii) (s : string) : list string :=
  match s with
  | "" => [""]
  | String a s' =>
      if decide (a = sep) then "" :: split sep s'
      else match split sep s' with
           | h :: t => String a h :: t
           | [] => [String a ""]
           end
  end.

(** [s.split(sep, 1)]: at most one cut, at the first separator. *)
Fixpoint split1 (sep : ascii) (s : string) : list string :=
  match s with
  | "" => [""]
  | String a s' =>
      if decide (a = sep) then [""; s']
      else match split1 sep s' with
           | h :: t => String a h :: t
           | [] => [String a ""]
           end
  end.

(** [sep.join(l)]. *)
Fixpoint join (sep : string) (l : list string) : string :=
  match l with
  | [] => ""
  | [x] => x
  | x :: l' => x +:+ sep +:+ join sep l'
  end.

(** [c in s] for a one-character [c]. *)
Fixpoint contains (c : ascii) (s : string) : bool :=
  match s with
  | "" => false
  | String a s' => if decide (a = c) then true else contains c s'
  end.

(** [str.isspace] on one code point below 256. *)
Definition isspace (a : ascii) : bool :=
  let n := N_of_ascii a in
  ((9 <=? n) && (n <=? 13) || (28 <=? n) && (n <=? 32)
   || (n =? 133) || (n =? 160))%N.

Fixpoint lstrip (s : string) : string :=
  match s with
  | "" => ""
  | String a s' => if isspace a then lstrip s' else s
  end.

Fixpoint rstrip (s : string) : string :=
  match s with
  | "" => ""
  | String a s' =>
      match rstrip s' with
      | "" => if isspace a then "" else String a ""
      | r => String a r
      end
  end.

(** [s.strip()]. *)
Definition strip (s : string) : string := rstrip (lstrip s).

(** [str.lower] on one code point below 256: A-Z and the accented
    capitals 192-222 (but not the multiplication sign 215) move up by 32. *)
Definition lower_char (a : ascii) : ascii :=
  let n := N_of_ascii a in
  if ((65 <=? n) && (n <=? 90)
      || (192 <=? n) && (n <=? 222) && negb (n =? 215))%N
  then ascii_of_N (n + 32) else a.

Fixpoint lower (s : string) : string :=
  match s with
  | "" => ""
  | String a s' => String (lower_char a) (lower s')
  end.

(** [s.rfind(c)]: the last index of [c], or -1. *)
Fixpoint rfind (c : ascii) (s : string) : Z :=
  match s with
  | "" => -1
  | String a s' =>
      let r := rfind c s' in
      if 0 <=? r then r + 1 else if decide (a = c) then 0 else -1
  end.

(** [s[n:]] for [n >= 0]. *)
Fixpoint drop (n : nat) (s : string) : string :=
  match n, s with
  | O, _ => s
  | S n', String _ s' => drop n' s'
  | S _, "" => ""
  end.

Definition len (s : string) : Z := Z.of_nat (String.length s).

End PyStr.

(** ** [pathlib]: name and suffix of a resolved POSIX path *)

Module PyPath.

(** [Path.name]: the final component. *)
Definition name (p : string) : string :=
  PyStr.drop (Z.to_nat (PyStr.rfind "/" p + 1)) p.

(** [Path.suffix]: from the last dot of the name on, when that dot is
    neither the first nor the last character of the name. *)
Definition suffix (p : string) : string :=
  let n := name p in
  let i := PyStr.rfind "." n in
  if (0 <? i) && (i <? PyStr.len n - 1) then PyStr.drop (Z.to_nat i) n
  else "".

End PyPath.

(** ** Values, result dictionaries, exceptions *)

(** The JSON scalars an argument can be. *)
Inductive value :=
  | VNone
  | VBool (b : bool)
  | VInt (z : Z)
  | VStr (s : string).

(** What a result dictionary stores under a key. *)
Inductive field :=
  | Scalar (v : value)
  | Mapping (m : gmap string string).

Coercion Scalar : value >-> field.

Global Instance value_eq_dec : EqDecision value.
Proof. solve_decision. Defined.

Global Instance field_eq_dec : EqDecision field.
Proof. solve_decision. Defined.

Inductive exn_class :=
  | KeyError
  | ValueError
  | TypeError
  | TimeoutExpired
  | FileNotFoundError
  | OtherException.

(** An exception: its class and [str(e)]. Every class here derives from
    [Exception]. *)
Record exn := Exn { exn_type : exn_class; exn_str : string }.

Inductive outcome (A : Type) :=
  | Return (a : A)
  | Raise (e : exn).

Arguments Return {A} a.
Arguments Raise {A} e.

(** [subprocess.CompletedProcess] with captured text streams. *)
Record CompletedProcess :=
  { returncode : Z; stdout : string; stderr : string }.

(** One call of [subprocess.run]: the command line and the timeout. *)
Record Invocation := Launch { argv : list string; timeout : Z }.

Record World :=
  { resolve : string -> outcome string;
    path_exists : string -> outcome bool;
    subprocess_run : list string -> Z -> outcome CompletedProcess }.

(** ** The monad of the operations *)

Definition M (A : Type) : Type := outcome A * list Invocation.

Definition ret {A} (a : A) : M A := (Return a, []).
Definition raise {A} (e : exn) : M A := (Raise e, []).
Definition lift {A} (o : outcome A) : M A := (o, []).

Definition bind {A B} (m : M A) (k : A -> M B) : M B :=
  match m with
  | (Return a, t) => let '(r, t') := k a in (r, t ++ t')
  | (Raise e, t) => (Raise e, t)
  end.

(** [try: body / except ...: handler e]. *)
Definition try_except {A} (body : M A) (handler : exn -> M A) : M A :=
  match body with
  | (Return a, t) => (Return a, t)
  | (Raise e, t) => let '(r, t') := handler e in (r, t ++ t')
  end.

Notation "x <- m ;; k" := (bind m (fun x => k))
  (at level 100, m at next level, right associativity,
   format "x  <-  m  ;;  '/' k").

(** What a computation yields, apart from the launches it made. *)
Definition outcome_of {A} (m : M A) : outcome A := fst m.

(** ** Dynamic operations on values *)

(** [type(v).__name__]. *)
Definition type_name (v : value) : string :=
  match v with
  | VNone => "NoneType"
  | VBool _ => "bool"
  | VInt _ => "int"
  | VStr _ => "str"
  end.

(** The integer a [bool] or an [int] stands for. *)
Definition as_number (v : value) : option Z :=
  match v with
  | VInt z => Some z
  | VBool b => Some (if b then 1 else 0)
  | _ => None
  end.

(** [bool(v)], the test of [if v:]. *)
Definition truthy (v : value) : bool :=
  match v with
  | VNone => false
  | VBool b => b
  | VInt z => negb (z =? 0)
  | VStr s => negb (bool_decide (s = ""))
  end.

(** [str(v)]. *)
Definition py_str (v : value) : string :=
  match v with
  | VNone => "None"
  | VBool b => if b then "True" else "False"
  | VInt z => pretty z
  | VStr s => s
  end.

(** [a < b]: numbers compare by value, strings by code points, and any
    other pair of types raises [TypeError]. *)
Definition py_lt (a b : value) : outcome bool :=
  match as_number a, as_number b with
  | Some x, Some y => Return (x <? y)
  | _, _ =>
      match a, b with
      | VStr s, VStr t => Return (String.ltb s t)
      | _, _ =>
          Raise (Exn TypeError
                   ("'<' not supported between instances of '" +:+ type_name a
                    +:+ "' and '" +:+ type_name b +:+ "'"))
      end
  end.

(** [l[:stop]]: a negative [stop] counts from the end, [None] keeps all,
    anything without [__index__] raises [TypeError]. *)
Definition slice_to {A} (l : list A) (stop : value) : outcome (list A) :=
  match stop with
  | VNone => Return l
  | VStr _ =>
      Raise (Exn TypeError
               "slice indices must be integers or None or have an __index__ method")
  | VBool b => Return (take (if b then 1 else 0)%nat l)
  | VInt k =>
      Return (take (Z.to_nat (if k <? 0 then Z.of_nat (length l) + k else k)) l)
  end.

(** [arguments[key]]. *)
Definition getitem (arguments : gmap string value) (key : string) : M value :=
  match arguments !! key with
  | Some v => ret v
  | None => raise (Exn KeyError ("'" +:+ key +:+ "'"))
  end.

(** [arguments.get(key)]. *)
Definition get (arguments : gmap string value) (key : string) : value :=
  default VNone (arguments !! key).

(** ** The server *)

Section Server.

Variable w : World.

(** [Path(file_path).expanduser().resolve()], as the string of the
    resolved path; [Path] refuses anything that is not a string. *)
Definition resolved (file_path : value) : M string :=
  match file_path with
  | VStr s => lift (resolve w s)
  | v =>
      raise (Exn TypeError
               ("argument should be a str or an os.PathLike object where "
                +:+ "__fspath__ returns a str, not '" +:+ type_name v +:+ "'"))
  end.

(** [subprocess.run(argv, capture_output=True, text=True, timeout=t)]. *)
Definition run (argv : list string) (t : Z) : M CompletedProcess :=
  (subprocess_run w argv t, [Launch argv t]).

Definition install_hint (tool : string) : string :=
  tool +:+ " not found. Install with: brew install poppler (macOS) or "
  +:+ "apt-get install poppler-utils (Linux)".

Definition error (msg : string) : gmap string field :=
  {[ "error" := Scalar (VStr msg) ]}.

Definition extract_pdf_text (file_path max_lines : value)
  : M (gmap string field) :=
  file_path <- resolved file_path ;;
  present <- lift (path_exists w file_path) ;;
  if negb present then ret (error ("File not found: " +:+ file_path))
  else if negb (bool_decide (PyStr.lower (PyPath.suffix file_path) = ".pdf"))
  then ret (error "File must be a PDF")
  else
    try_except
      (result <- run ["pdftotext"; file_path; "-"] 60 ;;
       if negb (returncode result =? 0)
       then ret (error ("PDF extraction failed: " +:+ stderr result))
       else
         let text := stdout result in
         text <- (if truthy max_lines
                  then
                    let lines := PyStr.split PyStr.newline text in
                    kept <- lift (slice_to lines max_lines) ;;
                    ret (PyStr.join PyStr.nl kept)
                  else ret text) ;;
         ret {[ "success" := Scalar (VBool true);
                "file_path" := Scalar (VStr file_path);
                "text" := Scalar (VStr text);
                "lines" := Scalar (VInt (Z.of_nat
                             (length (PyStr.split PyStr.newline text)))) ]})
      (fun e =>
         match exn_type e with
         | TimeoutExpired => ret (error "PDF extraction timed out")
         | FileNotFoundError => ret (error (install_hint "pdftotext"))
         | _ => ret (error ("Error extracting PDF: " +:+ exn_str e))
         end).

(** The body of the [for line in ...] loop of [extract_pdf_metadata]. *)
Definition metadata_line (metadata : gmap string string) (line : string)
  : M (gmap string string) :=
  if PyStr.contains ":" line
  then
    match PyStr.split1 ":" line with
    | [key; value] => ret (<[PyStr.strip key := PyStr.strip value]> metadata)
    | [_] => raise (Exn ValueError "not enough values to unpack (expected 2, got 1)")
    | _ => raise (Exn ValueError "too many values to unpack (expected 2)")
    end
  else ret metadata.

Fixpoint metadata_loop (metadata : gmap string string) (lines : list string)
  : M (gmap string string) :=
  match lines with
  | [] => ret metadata
  | line :: rest =>
      metadata <- metadata_line metadata line ;;
      metadata_loop metadata rest
  end.

Definition extract_pdf_metadata (file_path : value) : M (gmap string field) :=
  file_path <- resolved file_path ;;
  present <- lift (path_exists w file_path) ;;
  if negb present then ret (error ("File not found: " +:+ file_path))
  else if negb (bool_decide (PyStr.lower (PyPath.suffix file_path) = ".pdf"))
  then ret (error "File must be a PDF")
  else
    try_except
      (result <- run ["pdfinfo"; file_path] 30 ;;
       if negb (returncode result =? 0)
       then ret (error ("Failed to extract metadata: " +:+ stderr result))
       else
         metadata <- metadata_loop ∅
                       (PyStr.split PyStr.newline (stdout result)) ;;
         ret {[ "success" := Scalar (VBool true);
                "file_path" := Scalar (VStr file_path);
                "metadata" := Mapping metadata ]})
      (fun e =>
         match exn_type e with
         | FileNotFoundError => ret (error (install_hint "pdfinfo"))
         | _ => ret (error ("Error extracting metadata: " +:+ exn_str e))
         end).

Definition extract_pdf_section (file_path start_page end_page : value)
  : M (gmap string field) :=
  file_path <- resolved file_path ;;
  present <- lift (path_exists w file_path) ;;
  if negb present then ret (error ("File not found: " +:+ file_path))
  else if negb (bool_decide (PyStr.lower (PyPath.suffix file_path) = ".pdf"))
  then ret (error "File must be a PDF")
  else
    bad_start <- lift (py_lt start_page (VInt 1)) ;;
    bad_end <- (if bad_start then ret true
                else lift (py_lt end_page start_page)) ;;
    if bad_end then ret (error "Invalid page range")
    else
      try_except
        (result <- run ["pdftotext"; "-f"; py_str start_page;
                        "-l"; py_str end_page; file_path; "-"] 60 ;;
         if negb (returncode result =? 0)
         then ret (error ("PDF extraction failed: " +:+ stderr result))
         else
           ret {[ "success" := Scalar (VBool true);
                  "file_path" := Scalar (VStr file_path);
                  "pages" := Scalar (VStr (py_str start_page +:+ "-"
                                           +:+ py_str end_page));
                  "text" := Scalar (VStr (stdout result)) ]})
        (fun e =>
           match exn_type e with
           | FileNotFoundError => ret (error (install_hint "pdftotext"))
           | _ => ret (error ("Error extracting PDF: " +:+ exn_str e))
           end).

Definition call_tool (name : string) (arguments : gmap string value)
  : M (gmap string field) :=
  if bool_decide (name = "extract_pdf_text") then
    file_path <- getitem arguments "file_path" ;;
    extract_pdf_text file_path (get arguments "max_lines")
  else if bool_decide (name = "extract_pdf_metadata") then
    file_path <- getitem arguments "file_path" ;;
    extract_pdf_metadata file_path
  else if bool_decide (name = "extract_pdf_section") then
    file_path <- getitem arguments "file_path" ;;
    start_page <- getitem arguments "start_page" ;;
    end_page <- getitem arguments "end_page" ;;
    extract_pdf_section file_path start_page end_page
  else raise (Exn ValueError ("Unknown tool: " +:+ name)).

End Server.

(** ** Vocabulary of the statements *)

(** [file_path] names an existing file whose resolved path [p] has the
    suffix [.pdf], in any letter case. *)
Definition valid_pdf (w : World) (file_path p : string) : Prop :=
  resolve w file_path = Return p
  ∧ path_exists w p = Return true
  ∧ PyStr.lower (PyPath.suffix p) = ".pdf".

(** [sub] occurs somewhere inside [s]. *)
Definition occurs_in (sub s : string) : Prop :=
  ∃ pre post, s = pre +:+ sub +:+ post.

(** The success dictionaries, field by field. *)
Definition text_payload (p text : string) (lines : Z) : gmap string field :=
  {[ "success" := Scalar (VBool true);
     "file_path" := Scalar (VStr p);
     "text" := Scalar (VStr text);
     "lines" := Scalar (VInt lines) ]}.

Definition metadata_payload (p : string) (metadata : gmap string string)
  : gmap string field :=
  {[ "success" := Scalar (VBool true);
     "file_path" := Scalar (VStr p);
     "metadata" := Mapping metadata ]}.

(** The number of newline-delimited segments of a text. *)
Definition segments (text : string) : list string :=
  PyStr.split PyStr.newline text.

Definition segment_count (text : string) : Z :=
  Z.of_nat (length (segments text)).

(** A world in which every path resolves to itself and exists, and every
    process launch has the same outcome. *)
Definition tool_stub (out : outcome CompletedProcess) : World :=
  {| resolve := fun s => Return s;
     path_exists := fun _ => Return true;
     subprocess_run := fun _ _ => out |}.

(** The process ran to its end with this exit code and these streams. *)
Definition exits (code : Z) (out err : string) : outcome CompletedProcess :=
  Return {| returncode := code; stdout := out; stderr := err |}.

(** A world whose file system holds no file at all. *)
Definition empty_disk (out : outcome CompletedProcess) : World :=
  {| resolve := fun s => Return s;
     path_exists := fun _ => Return false;
     subprocess_run := fun _ _ => out |}.

(** A world in which looking at any file is refused. *)
Definition locked_disk : World :=
  {| resolve := fun s => Return s;
     path_exists := fun _ => Raise (Exn OtherException "Permission denied");
     subprocess_run := fun _ _ => exits 0 "text" "" |}.

(** The stdout of the round-trip example: three lines, each terminated. *)
Definition abc : string :=
  "A" +:+ PyStr.nl +:+ "B" +:+ PyStr.nl +:+ "C" +:+ PyStr.nl.

(** The text of a line before its first [c]. *)
Fixpoint before_first (c : ascii) (s : string) : string :=
  match s with
  | "" => ""
  | String a s' => if decide (a = c) then "" else String a (before_first c s')
  end.

(** The text of a line after its first [c]. *)
Fixpoint after_first (c : ascii) (s : string) : string :=
  match s with
  | "" => ""
  | String a s' => if decide (a = c) then s' else after_first c s'
  end.

(** The code points below 256 that count as white space. *)
Definition blank_codes : list nat :=
  [9; 10; 11; 12; 13; 28; 29; 30; 31; 32; 133; 160]%nat.

Definition blank (a : ascii) : bool :=
  bool_decide (nat_of_ascii a ∈ blank_codes).

(** A text without its leading white space. *)
Fixpoint skip_blanks (s : string) : string :=
  match s with
  | "" => ""
  | String a s' => if blank a then skip_blanks s' else s
  end.

Fixpoint all_blank (s : string) : bool :=
  match s with
  | "" => true
  | String a s' => blank a && all_blank s'
  end.

(** A text cut where nothing but white space follows. *)
Fixpoint drop_trailing_blanks (s : string) : string :=
  match s with
  | "" => ""
  | String a s' =>
      if all_blank s then "" else String a (drop_trailing_blanks s')
  end.

(** What the specification calls trimmed: no white space left at either
    end. Written without any of the [str] methods of the code. *)
Definition spec_trim (s : string) : string :=
  drop_trailing_blanks (skip_blanks s).

(** The specification of the metadata mapping, in its own words: a line
    containing a colon is cut at the first colon into a trimmed key and a
    trimmed value, a line without a colon is dropped ... *)
Definition spec_entry (line : string) : option (string * string) :=
  if PyStr.contains ":" line
  then Some (spec_trim (before_first ":" line),
             spec_trim (after_first ":" line))
  else None.

Definition spec_entries (out : string) : list (string * string) :=
  omap spec_entry (segments out).

(** ... and the last occurrence of a key wins. *)
Definition spec_metadata (out : string) (key : string) : option string :=
  snd <$> last (filter (λ e, e.1 = key) (spec_entries out)).

(** [metadata[key] = value] for an entry [(key, value)]. *)
Definition store (m : gmap string string) (e : string * string)
  : gmap string string := <[e.1 := e.2]> m.

(** The eight ways of writing the extension "pdf" in upper and lower
    case. *)
Definition pdf_spellings : list string :=
  ["pdf"; "pdF"; "pDf"; "pDF"; "Pdf"; "PdF"; "PDf"; "PDF"].

(** The names the dispatcher knows. *)
Definition tools : list string :=
  ["extract_pdf_text"; "extract_pdf_metadata"; "extract_pdf_section"].

(** A response value: an error dictionary, or a dictionary marked as a
    success. *)
Definition is_response (d : gmap string field) : Prop :=
  (∃ msg, d = error msg) ∨ d !! "success" = Some (Scalar (VBool true)).

(** ** The tool catalogue *)

Module types.

(** The [inputSchema] dictionary of a tool: its ["type"], its
    ["properties"] (each one a dictionary of strings) and its
    ["required"] list. *)
Record Schema :=
  { type : string;
    properties : gmap string (gmap string string);
    required : list string }.

(** [mcp.types.Tool], with the fields the server fills in. *)
Record Tool :=
  { name : string; description : string; inputSchema : Schema }.

End types.

Definition list_tools : list types.Tool :=
  [ {| types.name := "extract_pdf_text";
       types.description := "Extract all text content from a PDF file";
       types.inputSchema :=
         {| types.type := "object";
            types.properties :=
              {[ "file_path" :=
                   {[ "type" := "string";
                      "description" := "Absolute path to the PDF file" ]};
                 "max_lines" :=
                   {[ "type" := "integer";
                      "description" :=
                        "Maximum lines to extract (optional, default: all)" ]} ]};
            types.required := ["file_path"] |} |};
    {| types.name := "extract_pdf_metadata";
       types.description :=
         "Extract metadata from a PDF file (title, author, pages, etc.)";
       types.inputSchema :=
         {| types.type := "object";
            types.properties :=
              {[ "file_path" :=
                   {[ "type" := "string";
                      "description" := "Absolute path to the PDF file" ]} ]};
            types.required := ["file_path"] |} |};
    {| types.name := "extract_pdf_section";
       types.description := "Extract text from a specific page range in a PDF";
       types.inputSchema :=
         {| types.type := "object";
            types.properties :=
              {[ "file_path" :=
                   {[ "type" := "string";
                      "description" := "Absolute path to the PDF file" ]};
                 "start_page" :=
                   {[ "type" := "integer";
                      "description" := "Starting page number (1-indexed)" ]};
                 "end_page" :=
                   {[ "type" := "integer";
                      "description" :=
                        "Ending page number (1-indexed, inclusive)" ]} ]};
            types.required := ["file_path"; "start_page"; "end_page"] |} |} ].

(** ** Vocabulary about requests and responses *)

(** The first key of [keys] that [arguments] lacks. *)
Fixpoint first_missing (keys : list string) (arguments : gmap string value)
  : option string :=
  match keys with
  | [] => None
  | k :: rest =>
      match arguments !! k with
      | Some _ => first_missing rest arguments
      | None => Some k
      end
  end.

(** A value is an instance of a JSON Schema type name. *)
Definition has_type (ty : string) (v : value) : bool :=
  match v with
  | VNone => bool_decide (ty = "null")
  | VBool _ => bool_decide (ty = "boolean")
  | VInt _ => bool_decide (ty = "integer")
  | VStr _ => bool_decide (ty = "string")
  end.

(** [arguments] is valid against a schema: every required key is there,
    and every argument the schema describes has the type it declares. *)
Definition conforms (s : types.Schema) (arguments : gmap string value) : Prop :=
  first_missing (types.required s) arguments = None
  ∧ ∀ k v ty,
      arguments !! k = Some v ->
      types.properties s !! k ≫= (.!! "type") = Some ty ->
      has_type ty v = true.

(** The three command lines the server has, on a path [p]: the text
    extractor on the whole file or on a page range, with a minute to run,
    and the metadata reader, with half a minute. *)
Definition launch_on (p : string) (l : Invocation) : Prop :=
  l = Launch ["pdftotext"; p; "-"] 60
  ∨ l = Launch ["pdfinfo"; p] 30
  ∨ ∃ first last,
      l = Launch ["pdftotext"; "-f"; first; "-l"; last; p; "-"] 60.

(** A dictionary that reports a failure and nothing else. *)
Definition error_only (d : gmap string field) : Prop :=
  (∃ msg, d = error msg) ∧ d !! "success" = None.

(** A dictionary that reports a success: it names the file and has no
    ["error"] entry. *)
Definition success_only (d : gmap string field) : Prop :=
  d !! "success" = Some (Scalar (VBool true))
  ∧ d !! "error" = None
  ∧ ∃ p, d !! "file_path" = Some (Scalar (VStr p)).

(** What every run of an operation on [file_path] keeps to: it launches
    nothing, or one process on the resolved path of an existing .pdf file;
    and what it returns is a failure or a success dictionary. *)
Definition orderly (w : World) (file_path : value)
    (m : M (gmap string field)) : Prop :=
  (snd m = []
   ∨ ∃ s p l, file_path = VStr s ∧ valid_pdf w s p ∧ snd m = [l]
              ∧ launch_on p l)
  ∧ ∀ d, fst m = Return d -> error_only d ∨ success_only d.

(** [s] starts with [pre]. *)
Definition starts_with (pre s : string) : Prop := ∃ rest, s = pre +:+ rest.

(** Nothing to strip at either end. *)
Definition trimmed (s : string) : Prop := PyStr.strip s = s.

(** ** The embedding on concrete inputs *)

Example split_trailing_newline : segments abc = ["A"; "B"; "C"; ""].
Proof. reflexivity. Qed.

Example split_empty : segments "" = [""].
Proof. reflexivity. Qed.

Example split1_time :
  PyStr.split1 ":" "Created: 10:20:30" = ["Created"; " 10:20:30"].
Proof. reflexivity. Qed.

Example strip_both_ends : PyStr.strip "  a b  " = "a b".
Proof. reflexivity. Qed.

Example suffix_upper : PyStr.lower (PyPath.suffix "/home/me/Doc.v2.PDF") = ".pdf".
Proof. reflexivity. Qed.

Example suffix_hidden_file : PyPath.suffix "/home/me/.pdf" = "".
Proof. reflexivity. Qed.

Example suffix_of_directory_dot : PyPath.suffix "/home/me.d/report" = "".
Proof. reflexivity. Qed.

Example install_hint_pdftotext :
  install_hint "pdftotext"
  = "pdftotext not found. Install with: brew install poppler (macOS) or apt-get install poppler-utils (Linux)".
Proof. reflexivity. Qed.

Example section_command_line :
  extract_pdf_section (tool_stub (exits 0 "page two" "")) (VStr "/doc.pdf")
    (VInt 2) (VInt 13)
  = (Return {[ "success" := Scalar (VBool true);
               "file_path" := Scalar (VStr "/doc.pdf");
               "pages" := Scalar (VStr "2-13");
               "text" := Scalar (VStr "page two") ]},
     [Launch ["pdftotext"; "-f"; "2"; "-l"; "13"; "/doc.pdf"; "-"] 60]).
Proof. vm_compute. reflexivity. Qed.

Example max_lines_of_the_wrong_type :
  outcome_of (extract_pdf_text (tool_stub (exits 0 abc "")) (VStr "/doc.pdf")
                (VStr "2"))
  = Return (error ("Error extracting PDF: slice indices must be integers "
                   +:+ "or None or have an __index__ method")).
Proof. vm_compute. reflexivity. Qed.

(** ** Laws of the monad *)

Lemma bind_ret {A B} (a : A) (k : A -> M B) : bind (ret a) k = k a.
Proof. unfold bind, ret. destruct (k a) as [r t]. reflexivity. Qed.

Lemma bind_lift_return {A B} (a : A) (k : A -> M B) :
  bind (lift (Return a)) k = k a.
Proof. apply bind_ret. Qed.

Lemma valid_pdf_stub (out : outcome CompletedProcess) (p : string) :
  PyStr.lower (PyPath.suffix p) = ".pdf" -> valid_pdf (tool_stub out) p p.
Proof. intros Hs. repeat split. exact Hs. Qed.

(** Both path checks of a handler pass on a valid path. *)
Ltac past_path_checks H :=
  let Hr := fresh "Hresolve" in
  let He := fresh "Hexists" in
  let Hs := fresh "Hsuffix" in
  destruct H as (Hr & He & Hs);
  unfold extract_pdf_text, extract_pdf_metadata, extract_pdf_section, resolved;
  rewrite Hr, bind_lift_return, He, bind_lift_return;
  rewrite (bool_decide_true _ Hs); cbn [negb].

(** Evaluate the monadic plumbing around a process launch [Hrun]. *)
Ltac launch Hrun :=
  unfold run; rewrite Hrun;
  cbn [bind try_except ret raise lift returncode stdout stderr exn_type
       exn_str app].

Lemma error_inj (a b : string) : error a = error b -> a = b.
Proof.
  intros H. assert (error a !! "error" = error b !! "error") as Hl by (rewrite H; reflexivity).
  unfold error in Hl. rewrite !lookup_singleton_eq in Hl. congruence.
Qed.

Lemma occurs_in_suffix (pre s : string) : occurs_in s (pre +:+ s).
Proof.
  exists pre, "". f_equal. induction s as [|a s IH]; [reflexivity|].
  change (String a s = String a (s +:+ "")). f_equal. exact IH.
Qed.

(** ** Page-range validation *)

(** C3. On a valid existing .pdf path, every pair of integers with
    [start_page < 1] or [end_page < start_page] makes [extract_pdf_section]
    return exactly [{"error": "Invalid page range"}], and no process is
    launched. *)
Theorem C3_invalid_page_range (w : World) (file_path p : string)
    (start_page end_page : Z) :
  valid_pdf w file_path p ->
  start_page < 1 ∨ end_page < start_page ->
  extract_pdf_section w (VStr file_path) (VInt start_page) (VInt end_page)
  = (Return {[ "error" := Scalar (VStr "Invalid page range") ]}, []).
Proof.
  intros Hvalid Hbad. past_path_checks Hvalid.
  unfold py_lt. cbn [as_number]. rewrite bind_lift_return.
  destruct (Z.ltb_spec start_page 1).
  - rewrite bind_ret. reflexivity.
  - rewrite bind_lift_return.
    destruct (Z.ltb_spec end_page start_page); [reflexivity | lia].
Qed.

Lemma C3_invalid_page_range_witness :
  extract_pdf_section (tool_stub (exits 0 "text" "")) (VStr "/doc.pdf")
    (VInt 5) (VInt 2)
  = (Return {[ "error" := Scalar (VStr "Invalid page range") ]}, []).
Proof.
  apply (C3_invalid_page_range _ "/doc.pdf" "/doc.pdf" 5 2).
  - apply valid_pdf_stub. reflexivity.
  - right. lia.
Defined.

(** ** Path validation *)

(** C4. For each of the three operations, whatever its other arguments
    are: when the resolved path does not exist the operation returns the
    dictionary [{"error": "File not found: <path>"}], and when it exists but
    its suffix is not [.pdf] in any letter case it returns
    [{"error": "File must be a PDF"}]; in both cases no process is
    launched. *)
Theorem C4_path_rejected (w : World) (file_path p : string) (a b : value) :
  resolve w file_path = Return p ->
  (path_exists w p = Return false ->
   let refusal := (Return (error ("File not found: " +:+ p)), []) in
   extract_pdf_text w (VStr file_path) a = refusal
   ∧ extract_pdf_metadata w (VStr file_path) = refusal
   ∧ extract_pdf_section w (VStr file_path) a b = refusal)
  ∧ (path_exists w p = Return true ->
     PyStr.lower (PyPath.suffix p) ≠ ".pdf" ->
     let refusal := (Return (error "File must be a PDF"), []) in
     extract_pdf_text w (VStr file_path) a = refusal
     ∧ extract_pdf_metadata w (VStr file_path) = refusal
     ∧ extract_pdf_section w (VStr file_path) a b = refusal).
Proof.
  intros Hr. split.
  - intros He refusal.
    unfold extract_pdf_text, extract_pdf_metadata, extract_pdf_section, resolved.
    rewrite Hr, !bind_lift_return, He, !bind_lift_return. cbn [negb]. auto.
  - intros He Hs refusal.
    unfold extract_pdf_text, extract_pdf_metadata, extract_pdf_section, resolved.
    rewrite Hr, !bind_lift_return, He, !bind_lift_return. cbn [negb].
    rewrite (bool_decide_false _ Hs). cbn [negb]. auto.
Qed.

Lemma C4_path_rejected_witness :
  extract_pdf_metadata (empty_disk (exits 0 "text" "")) (VStr "/gone.pdf")
  = (Return (error "File not found: /gone.pdf"), [])
  ∧ extract_pdf_section (tool_stub (exits 0 "text" "")) (VStr "/notes.txt")
      (VInt 1) (VInt 3)
    = (Return (error "File must be a PDF"), []).
Proof.
  split.
  - apply (C4_path_rejected (empty_disk (exits 0 "text" "")) "/gone.pdf"
             "/gone.pdf" VNone VNone); reflexivity.
  - apply (C4_path_rejected (tool_stub (exits 0 "text" "")) "/notes.txt"
             "/notes.txt" (VInt 1) (VInt 3));
      [reflexivity | reflexivity | vm_compute; discriminate].
Defined.

(** ** Failures of the external process *)

(** C8. When the process exits with a code other than 0, each operation
    returns a dictionary whose only entry is ["error"], and the message
    under it contains the captured stderr: it is
    ["PDF extraction failed: <stderr>"] for [extract_pdf_text] and
    [extract_pdf_section], and ["Failed to extract metadata: <stderr>"] for
    [extract_pdf_metadata]. *)
Theorem C8_nonzero_exit (w : World) (file_path p : string)
    (start_page end_page : Z) (max_lines : value) (cp : CompletedProcess) :
  valid_pdf w file_path p ->
  returncode cp ≠ 0 ->
  1 <= start_page <= end_page ->
  (subprocess_run w ["pdftotext"; p; "-"] 60 = Return cp ->
   ∃ msg,
     outcome_of (extract_pdf_text w (VStr file_path) max_lines)
     = Return {[ "error" := Scalar (VStr msg) ]}
     ∧ msg = "PDF extraction failed: " +:+ stderr cp
     ∧ occurs_in (stderr cp) msg)
  ∧ (subprocess_run w ["pdfinfo"; p] 30 = Return cp ->
     ∃ msg,
       outcome_of (extract_pdf_metadata w (VStr file_path))
       = Return {[ "error" := Scalar (VStr msg) ]}
       ∧ msg = "Failed to extract metadata: " +:+ stderr cp
       ∧ occurs_in (stderr cp) msg)
  ∧ (subprocess_run w ["pdftotext"; "-f"; pretty start_page; "-l";
                       pretty end_page; p; "-"] 60 = Return cp ->
     ∃ msg,
       outcome_of (extract_pdf_section w (VStr file_path) (VInt start_page)
                     (VInt end_page))
       = Return {[ "error" := Scalar (VStr msg) ]}
       ∧ msg = "PDF extraction failed: " +:+ stderr cp
       ∧ occurs_in (stderr cp) msg).
Proof.
  intros Hvalid Hcode Hpages.
  apply Z.eqb_neq in Hcode.
  split; [|split]; intros Hrun; eexists;
    (split; [|split; [reflexivity | apply occurs_in_suffix]]);
    past_path_checks Hvalid.
  - launch Hrun. rewrite Hcode. reflexivity.
  - launch Hrun. rewrite Hcode. reflexivity.
  - unfold py_lt. cbn [as_number]. rewrite bind_lift_return.
    destruct (Z.ltb_spec start_page 1); [lia|]. rewrite bind_lift_return.
    destruct (Z.ltb_spec end_page start_page); [lia|].
    cbn [py_str]. launch Hrun. rewrite Hcode. reflexivity.
Qed.

Lemma C8_nonzero_exit_witness :
  (∃ msg,
     outcome_of (extract_pdf_text (tool_stub (exits 1 "" "bad file"))
                   (VStr "/doc.pdf") VNone)
     = Return {[ "error" := Scalar (VStr msg) ]}
     ∧ msg = "PDF extraction failed: bad file"
     ∧ occurs_in "bad file" msg)
  ∧ (∃ msg,
       outcome_of (extract_pdf_metadata (tool_stub (exits 1 "" "bad file"))
                     (VStr "/doc.pdf"))
       = Return {[ "error" := Scalar (VStr msg) ]}
       ∧ msg = "Failed to extract metadata: bad file"
       ∧ occurs_in "bad file" msg)
  ∧ (∃ msg,
       outcome_of (extract_pdf_section (tool_stub (exits 1 "" "bad file"))
                     (VStr "/doc.pdf") (VInt 1) (VInt 2))
       = Return {[ "error" := Scalar (VStr msg) ]}
       ∧ msg = "PDF extraction failed: bad file"
       ∧ occurs_in "bad file" msg).
Proof.
  pose proof (C8_nonzero_exit (tool_stub (exits 1 "" "bad file")) "/doc.pdf"
                "/doc.pdf" 1 2 VNone
                {| returncode := 1; stdout := ""; stderr := "bad file" |}) as H.
  destruct H as (Ht & Hm & Hs).
  - apply valid_pdf_stub. reflexivity.
  - cbn [returncode]. lia.
  - lia.
  - exact (conj (Ht eq_refl) (conj (Hm eq_refl) (Hs eq_refl))).
Defined.

(** C9. When launching the process fails because the executable is not
    found, each operation returns (it does not raise) an error dictionary
    with the installation advice for its tool, and that message is not one
    the generic exception wrapping can produce. *)
Theorem C9_tool_unavailable (w : World) (file_path p msg : string)
    (start_page end_page : Z) (max_lines : value) :
  valid_pdf w file_path p ->
  1 <= start_page <= end_page ->
  (subprocess_run w ["pdftotext"; p; "-"] 60
   = Raise (Exn FileNotFoundError msg) ->
   outcome_of (extract_pdf_text w (VStr file_path) max_lines)
   = Return (error (install_hint "pdftotext")))
  ∧ (subprocess_run w ["pdfinfo"; p] 30 = Raise (Exn FileNotFoundError msg) ->
     outcome_of (extract_pdf_metadata w (VStr file_path))
     = Return (error (install_hint "pdfinfo")))
  ∧ (subprocess_run w ["pdftotext"; "-f"; pretty start_page; "-l";
                       pretty end_page; p; "-"] 60
     = Raise (Exn FileNotFoundError msg) ->
     outcome_of (extract_pdf_section w (VStr file_path) (VInt start_page)
                   (VInt end_page))
     = Return (error (install_hint "pdftotext")))
  ∧ (∀ tool, occurs_in "Install with: brew install poppler" (install_hint tool))
  ∧ (∀ text, error (install_hint "pdftotext")
             ≠ error ("Error extracting PDF: " +:+ text))
  ∧ (∀ text, error (install_hint "pdfinfo")
             ≠ error ("Error extracting metadata: " +:+ text)).
Proof.
  intros Hvalid Hpages.
  split; [|split; [|split; [|split; [|split]]]].
  - intros Hrun. past_path_checks Hvalid. launch Hrun. reflexivity.
  - intros Hrun. past_path_checks Hvalid. launch Hrun. reflexivity.
  - intros Hrun. past_path_checks Hvalid.
    unfold py_lt. cbn [as_number]. rewrite bind_lift_return.
    destruct (Z.ltb_spec start_page 1); [lia|]. rewrite bind_lift_return.
    destruct (Z.ltb_spec end_page start_page); [lia|].
    cbn [py_str]. launch Hrun. reflexivity.
  - intros tool. exists (tool +:+ " not found. "),
      " (macOS) or apt-get install poppler-utils (Linux)".
    unfold install_hint. generalize tool as t.
    induction t as [|c t IH]; [reflexivity|].
    change (String c (t +:+ " not found. Install with: brew install poppler (macOS) or "
                      +:+ "apt-get install poppler-utils (Linux)")
            = String c ((t +:+ " not found. ")
                        +:+ "Install with: brew install poppler"
                        +:+ " (macOS) or apt-get install poppler-utils (Linux)")).
    f_equal. exact IH.
  - intros text H. apply error_inj in H. discriminate H.
  - intros text H. apply error_inj in H. discriminate H.
Qed.

Lemma C9_tool_unavailable_witness :
  outcome_of (extract_pdf_text
                (tool_stub (Raise (Exn FileNotFoundError "No such file")))
                (VStr "/doc.pdf") (VInt 3))
  = Return (error (install_hint "pdftotext")).
Proof.
  apply (C9_tool_unavailable
           (tool_stub (Raise (Exn FileNotFoundError "No such file")))
           "/doc.pdf" "/doc.pdf" "No such file" 1 1 (VInt 3)).
  - apply valid_pdf_stub. reflexivity.
  - lia.
  - reflexivity.
Defined.

(** C6. What each operation does when the process runs out of time.
    [extract_pdf_text] has a handler of its own for the timeout.
    [extract_pdf_metadata] and [extract_pdf_section] have none: a timeout
    falls into their catch-all handler, exactly like any exception that is
    not a missing executable, and is reported with the generic wrapping.
    All three return an error dictionary; none of them raises. *)
Theorem C6_timeout_handling (w : World) (file_path p msg : string)
    (start_page end_page : Z) (max_lines : value) :
  valid_pdf w file_path p ->
  1 <= start_page <= end_page ->
  (subprocess_run w ["pdftotext"; p; "-"] 60 = Raise (Exn TimeoutExpired msg) ->
   outcome_of (extract_pdf_text w (VStr file_path) max_lines)
   = Return (error "PDF extraction timed out"))
  ∧ (∀ c, c ≠ FileNotFoundError ->
       subprocess_run w ["pdfinfo"; p] 30 = Raise (Exn c msg) ->
       outcome_of (extract_pdf_metadata w (VStr file_path))
       = Return (error ("Error extracting metadata: " +:+ msg)))
  ∧ (∀ c, c ≠ FileNotFoundError ->
       subprocess_run w ["pdftotext"; "-f"; pretty start_page; "-l";
                         pretty end_page; p; "-"] 60 = Raise (Exn c msg) ->
       outcome_of (extract_pdf_section w (VStr file_path) (VInt start_page)
                     (VInt end_page))
       = Return (error ("Error extracting PDF: " +:+ msg))).
Proof.
  intros Hvalid Hpages. split; [|split].
  - intros Hrun. past_path_checks Hvalid. launch Hrun. reflexivity.
  - intros c Hc Hrun. past_path_checks Hvalid. launch Hrun.
    destruct c; try reflexivity. congruence.
  - intros c Hc Hrun. past_path_checks Hvalid.
    unfold py_lt. cbn [as_number]. rewrite bind_lift_return.
    destruct (Z.ltb_spec start_page 1); [lia|]. rewrite bind_lift_return.
    destruct (Z.ltb_spec end_page start_page); [lia|].
    cbn [py_str]. launch Hrun. destruct c; try reflexivity. congruence.
Qed.

Lemma C6_timeout_handling_witness :
  outcome_of (extract_pdf_metadata
                (tool_stub (Raise (Exn TimeoutExpired "timed out after 30 seconds")))
                (VStr "/doc.pdf"))
  = Return (error "Error extracting metadata: timed out after 30 seconds")
  ∧ outcome_of (extract_pdf_metadata
                  (tool_stub (Raise (Exn OtherException "timed out after 30 seconds")))
                  (VStr "/doc.pdf"))
    = Return (error "Error extracting metadata: timed out after 30 seconds").
Proof.
  split.
  - refine (proj1 (proj2 (C6_timeout_handling
             (tool_stub (Raise (Exn TimeoutExpired "timed out after 30 seconds")))
             "/doc.pdf" "/doc.pdf" "timed out after 30 seconds" 1 1 VNone
             _ _)) TimeoutExpired _ eq_refl).
    + apply valid_pdf_stub. reflexivity.
    + lia.
    + discriminate.
  - refine (proj1 (proj2 (C6_timeout_handling
             (tool_stub (Raise (Exn OtherException "timed out after 30 seconds")))
             "/doc.pdf" "/doc.pdf" "timed out after 30 seconds" 1 1 VNone
             _ _)) OtherException _ eq_refl).
    + apply valid_pdf_stub. reflexivity.
    + lia.
    + discriminate.
Defined.

(** ** Metadata parsing *)

Lemma isspace_blank (a : ascii) : PyStr.isspace a = blank a.
Proof. destruct a as [[] [] [] [] [] [] [] []]; vm_compute; reflexivity. Qed.

Lemma lstrip_skip_blanks (s : string) : PyStr.lstrip s = skip_blanks s.
Proof.
  induction s as [|a s IH]; [reflexivity|].
  cbn [PyStr.lstrip skip_blanks]. rewrite isspace_blank, IH. reflexivity.
Qed.

Lemma rstrip_empty (s : string) :
  PyStr.rstrip s = "" ↔ all_blank s = true.
Proof.
  induction s as [|a s IH]; [split; reflexivity|].
  cbn [PyStr.rstrip all_blank]. rewrite isspace_blank.
  destruct (PyStr.rstrip s) as [|b r].
  - destruct IH as [IH _]. rewrite (IH eq_refl), andb_true_r.
    destruct (blank a); split; congruence.
  - destruct (all_blank s).
    + destruct IH as [_ IH]. discriminate (IH eq_refl).
    + rewrite andb_false_r. split; discriminate.
Qed.

Lemma rstrip_drop_trailing_blanks (s : string) :
  PyStr.rstrip s = drop_trailing_blanks s.
Proof.
  induction s as [|a s IH]; [reflexivity|].
  cbn [drop_trailing_blanks].
  destruct (all_blank (String a s)) eqn:Hall.
  - apply rstrip_empty, Hall.
  - cbn [PyStr.rstrip]. rewrite <- IH.
    destruct (PyStr.rstrip s) as [|b r] eqn:Hr; [|reflexivity].
    apply rstrip_empty in Hr. cbn [all_blank] in Hall.
    rewrite Hr, andb_true_r in Hall. rewrite isspace_blank, Hall. reflexivity.
Qed.

(** [str.strip] trims, in the specification's sense. *)
Lemma strip_spec_trim (s : string) : PyStr.strip s = spec_trim s.
Proof.
  unfold PyStr.strip, spec_trim.
  rewrite rstrip_drop_trailing_blanks, lstrip_skip_blanks. reflexivity.
Qed.

Lemma spec_entry_strip (line : string) :
  spec_entry line
  = if PyStr.contains ":" line
    then Some (PyStr.strip (before_first ":" line),
               PyStr.strip (after_first ":" line))
    else None.
Proof. unfold spec_entry. rewrite !strip_spec_trim. reflexivity. Qed.

Lemma split1_first (c : ascii) (s : string) :
  PyStr.contains c s = true ->
  PyStr.split1 c s = [before_first c s; after_first c s].
Proof.
  induction s as [|a s IH]; cbn [PyStr.contains PyStr.split1 before_first after_first].
  - discriminate.
  - destruct (decide (a = c)); [reflexivity|].
    intros H. rewrite (IH H). reflexivity.
Qed.

Lemma metadata_line_entry (m : gmap string string) (line : string) :
  metadata_line m line = ret (from_option (store m) m (spec_entry line)).
Proof.
  unfold metadata_line. rewrite spec_entry_strip.
  destruct (PyStr.contains ":" line) eqn:Hc; [|reflexivity].
  rewrite (split1_first _ _ Hc). reflexivity.
Qed.

Lemma metadata_loop_entries (lines : list string) :
  ∀ m, metadata_loop m lines = ret (foldl store m (omap spec_entry lines)).
Proof.
  induction lines as [|line rest IH]; intros m; cbn [metadata_loop].
  - reflexivity.
  - rewrite metadata_line_entry, bind_ret, IH. cbn [omap list_omap].
    destruct (spec_entry line); reflexivity.
Qed.

Lemma lookup_foldl_store (es : list (string * string)) (m : gmap string string)
    (key : string) :
  foldl store m es !! key
  = match last (filter (λ e, e.1 = key) es) with
    | Some e => Some e.2
    | None => m !! key
    end.
Proof.
  induction es as [|e es IH] using rev_ind.
  - reflexivity.
  - rewrite foldl_app, filter_app. cbn [foldl]. unfold store at 1.
    destruct (decide (e.1 = key)) as [He | He].
    + rewrite filter_cons_True by exact He. rewrite filter_nil, last_snoc.
      rewrite He. apply lookup_insert_eq.
    + rewrite filter_cons_False by exact He. rewrite filter_nil, app_nil_r.
      rewrite lookup_insert_ne by exact He. exact IH.
Qed.

(** C2. On a zero exit, for every stdout of the metadata tool, the
    [metadata] mapping that [extract_pdf_metadata] returns is the one the
    specification describes: under each key, the trimmed value of the last
    line whose trimmed text before the first colon is that key, lines
    without a colon being dropped. In particular the stdout
    ["Title: Report\nPages: 5\n"] gives
    [{"Title": "Report", "Pages": "5"}], and so does the same stdout with
    white space around its keys and values. *)
Theorem C2_metadata_mapping (w : World) (file_path p out err : string) :
  valid_pdf w file_path p ->
  subprocess_run w ["pdfinfo"; p] 30 = exits 0 out err ->
  ∃ metadata,
    extract_pdf_metadata w (VStr file_path)
    = (Return {[ "success" := Scalar (VBool true);
                 "file_path" := Scalar (VStr p);
                 "metadata" := Mapping metadata ]},
       [Launch ["pdfinfo"; p] 30])
    ∧ (∀ key, metadata !! key = spec_metadata out key)
    ∧ (out = "Title: Report" +:+ PyStr.nl +:+ "Pages: 5" +:+ PyStr.nl ->
       metadata = {[ "Title" := "Report"; "Pages" := "5" ]})
    ∧ (out = "  Title :  Report  " +:+ PyStr.nl +:+ "Pages:5 " +:+ PyStr.nl ->
       metadata = {[ "Title" := "Report"; "Pages" := "5" ]}).
Proof.
  intros Hvalid Hrun.
  exists (foldl store ∅ (omap spec_entry (segments out))).
  split; [|split; [|split]].
  - past_path_checks Hvalid. unfold exits in Hrun. launch Hrun.
    cbn [Z.eqb negb]. rewrite metadata_loop_entries. reflexivity.
  - intros key. rewrite lookup_foldl_store. unfold spec_metadata, spec_entries.
    destruct (last _); reflexivity.
  - intros ->. vm_compute. reflexivity.
  - intros ->. vm_compute. reflexivity.
Qed.

Lemma C2_metadata_mapping_witness :
  ∃ metadata,
    extract_pdf_metadata
      (tool_stub (exits 0 ("  Title :  Report  " +:+ PyStr.nl +:+ "Pages:5 "
                           +:+ PyStr.nl) ""))
      (VStr "/doc.pdf")
    = (Return {[ "success" := Scalar (VBool true);
                 "file_path" := Scalar (VStr "/doc.pdf");
                 "metadata" := Mapping metadata ]},
       [Launch ["pdfinfo"; "/doc.pdf"] 30])
    ∧ metadata = {[ "Title" := "Report"; "Pages" := "5" ]}.
Proof.
  destruct (C2_metadata_mapping
              (tool_stub (exits 0 ("  Title :  Report  " +:+ PyStr.nl
                                   +:+ "Pages:5 " +:+ PyStr.nl) ""))
              "/doc.pdf" "/doc.pdf"
              ("  Title :  Report  " +:+ PyStr.nl +:+ "Pages:5 " +:+ PyStr.nl)
              "")
    as (metadata & Hcall & _ & _ & Hexample).
  - apply valid_pdf_stub. reflexivity.
  - reflexivity.
  - exists metadata. split; [exact Hcall | apply Hexample; reflexivity].
Defined.

(** ** Splitting and joining lines *)

Lemma append_cons (a : ascii) (s t : string) :
  String a s +:+ t = String a (s +:+ t).
Proof. reflexivity. Qed.

Lemma split_not_nil (c : ascii) (s : string) : PyStr.split c s ≠ [].
Proof.
  destruct s as [|a s]; cbn [PyStr.split]; [discriminate|].
  destruct (decide (a = c)); [discriminate|].
  destruct (PyStr.split c s); discriminate.
Qed.

(** No segment of a split holds the separator. *)
Lemma split_clean (c : ascii) (s : string) :
  Forall (λ x, PyStr.contains c x = false) (PyStr.split c s).
Proof.
  induction s as [|a s IH]; cbn [PyStr.split].
  - repeat constructor.
  - destruct (decide (a = c)) as [Heq | Hne].
    + constructor; [reflexivity | exact IH].
    + destruct (PyStr.split c s) as [|h t].
      * repeat constructor. cbn [PyStr.contains].
        rewrite decide_False by exact Hne. reflexivity.
      * inversion IH as [|? ? Hh Ht]; subst. constructor; [|exact Ht].
        cbn [PyStr.contains]. rewrite decide_False by exact Hne. exact Hh.
Qed.

Lemma split_without_sep (c : ascii) (x : string) :
  PyStr.contains c x = false -> PyStr.split c x = [x].
Proof.
  induction x as [|a x IH]; cbn [PyStr.contains PyStr.split]; [reflexivity|].
  destruct (decide (a = c)); [discriminate|].
  intros H. rewrite (IH H). reflexivity.
Qed.

Lemma split_append_sep (c : ascii) (x rest : string) :
  PyStr.contains c x = false ->
  PyStr.split c (x +:+ String c rest) = x :: PyStr.split c rest.
Proof.
  induction x as [|a x IH]; cbn [PyStr.contains].
  - intros _. change ("" +:+ String c rest) with (String c rest).
    cbn [PyStr.split]. rewrite decide_True by reflexivity. reflexivity.
  - destruct (decide (a = c)) as [|Hne]; [discriminate|].
    intros H. rewrite append_cons. cbn [PyStr.split].
    rewrite decide_False by exact Hne. rewrite (IH H). reflexivity.
Qed.

(** Splitting undoes joining, for a non-empty list of clean segments. *)
Lemma split_join (c : ascii) (l : list string) :
  l ≠ [] ->
  Forall (λ x, PyStr.contains c x = false) l ->
  PyStr.split c (PyStr.join (String c "") l) = l.
Proof.
  induction l as [|x l IH]; [congruence|].
  intros _ Hclean. inversion Hclean as [|? ? Hx Hl]; subst.
  destruct l as [|y l].
  - cbn [PyStr.join]. apply split_without_sep, Hx.
  - change (PyStr.join (String c "") (x :: y :: l))
      with (x +:+ String c (PyStr.join (String c "") (y :: l))).
    rewrite (split_append_sep _ _ _ Hx). f_equal. apply IH; [discriminate | exact Hl].
Qed.

Lemma segments_join_take (n : nat) (out : string) :
  (0 < n)%nat ->
  segments (PyStr.join PyStr.nl (take n (segments out))) = take n (segments out).
Proof.
  intros Hn. unfold segments, PyStr.nl. apply split_join.
  - pose proof (split_not_nil PyStr.newline out) as Hne.
    destruct (PyStr.split PyStr.newline out); [congruence|].
    destruct n; [lia | discriminate].
  - apply Forall_take, split_clean.
Qed.

(** ** Text extraction *)

Lemma extract_pdf_text_untruncated (w : World) (file_path p out err : string)
    (max_lines : value) :
  valid_pdf w file_path p ->
  subprocess_run w ["pdftotext"; p; "-"] 60 = exits 0 out err ->
  truthy max_lines = false ->
  extract_pdf_text w (VStr file_path) max_lines
  = (Return (text_payload p out (segment_count out)),
     [Launch ["pdftotext"; p; "-"] 60]).
Proof.
  intros Hvalid Hrun Hfalsy. past_path_checks Hvalid.
  unfold exits in Hrun. launch Hrun. rewrite Hfalsy. reflexivity.
Qed.

Lemma extract_pdf_text_truncated (w : World) (file_path p out err : string)
    (max_lines : value) (kept : list string) :
  valid_pdf w file_path p ->
  subprocess_run w ["pdftotext"; p; "-"] 60 = exits 0 out err ->
  truthy max_lines = true ->
  slice_to (segments out) max_lines = Return kept ->
  extract_pdf_text w (VStr file_path) max_lines
  = (Return (text_payload p (PyStr.join PyStr.nl kept)
               (segment_count (PyStr.join PyStr.nl kept))),
     [Launch ["pdftotext"; p; "-"] 60]).
Proof.
  intros Hvalid Hrun Htruthy Hslice. past_path_checks Hvalid.
  unfold exits in Hrun. launch Hrun. rewrite Htruthy.
  unfold segments in Hslice. rewrite Hslice. reflexivity.
Qed.

Lemma truthy_nonzero (n : Z) : n ≠ 0 -> truthy (VInt n) = true.
Proof. intros H. cbn [truthy]. apply negb_true_iff, Z.eqb_neq, H. Qed.

(** C1, as the code has it. When the text extractor exits 0 with stdout
    ["A\nB\nC\n"]: with [max_lines=2] the result has [text="A\nB"] and
    [lines=2]; with no [max_lines] the result has the whole stdout as text
    and [lines=4], the three lines and the empty segment after the last
    newline. In general, for [max_lines] absent or an integer, the [lines]
    field is the number of newline-delimited segments of the returned
    text. *)
Theorem C1_lines_field (w : World) (file_path p out err : string) :
  valid_pdf w file_path p ->
  subprocess_run w ["pdftotext"; p; "-"] 60 = exits 0 out err ->
  (∀ max_lines, max_lines = VNone ∨ (∃ n, max_lines = VInt n) ->
     ∃ text,
       outcome_of (extract_pdf_text w (VStr file_path) max_lines)
       = Return (text_payload p text (segment_count text)))
  ∧ (out = abc ->
     outcome_of (extract_pdf_text w (VStr file_path) (VInt 2))
     = Return (text_payload p ("A" +:+ PyStr.nl +:+ "B") 2))
  ∧ (out = abc ->
     outcome_of (extract_pdf_text w (VStr file_path) VNone)
     = Return (text_payload p abc 4)).
Proof.
  intros Hvalid Hrun. split; [|split].
  - intros max_lines Hschema.
    destruct (truthy max_lines) eqn:Htruthy.
    + destruct Hschema as [-> | [n ->]]; [discriminate|].
      eexists.
      rewrite (extract_pdf_text_truncated w file_path p out err (VInt n) _
                 Hvalid Hrun Htruthy eq_refl).
      reflexivity.
    + exists out.
      rewrite (extract_pdf_text_untruncated w file_path p out err max_lines
                 Hvalid Hrun Htruthy).
      reflexivity.
  - intros ->.
    rewrite (extract_pdf_text_truncated w file_path p abc err (VInt 2) _
               Hvalid Hrun eq_refl eq_refl).
    reflexivity.
  - intros ->.
    rewrite (extract_pdf_text_untruncated w file_path p abc err VNone
               Hvalid Hrun eq_refl).
    reflexivity.
Qed.

Lemma C1_lines_field_witness :
  outcome_of (extract_pdf_text (tool_stub (exits 0 abc "")) (VStr "/doc.pdf")
                (VInt 2))
  = Return (text_payload "/doc.pdf" ("A" +:+ PyStr.nl +:+ "B") 2)
  ∧ outcome_of (extract_pdf_text (tool_stub (exits 0 abc "")) (VStr "/doc.pdf")
                  VNone)
    = Return (text_payload "/doc.pdf" abc 4).
Proof.
  destruct (C1_lines_field (tool_stub (exits 0 abc "")) "/doc.pdf" "/doc.pdf"
              abc "") as (_ & Htwo & Hall).
  - apply valid_pdf_stub. reflexivity.
  - reflexivity.
  - split; [apply Htwo | apply Hall]; reflexivity.
Defined.

(** C1 as stated fails: on stdout ["A\nB\nC\n"] and no [max_lines] the
    [lines] field is not 3. *)
Lemma C1_counterexample :
  ¬ ∃ d,
      outcome_of (extract_pdf_text (tool_stub (exits 0 abc "")) (VStr "/doc.pdf")
                    VNone) = Return d
      ∧ d !! "lines" = Some (Scalar (VInt 3)).
Proof.
  intros (d & Hd & Hlines).
  rewrite (extract_pdf_text_untruncated (tool_stub (exits 0 abc ""))
             "/doc.pdf" "/doc.pdf" abc "" VNone) in Hd;
    [| apply valid_pdf_stub; reflexivity | reflexivity | reflexivity].
  injection Hd as <-. vm_compute in Hlines. discriminate Hlines.
Qed.

(** C5. After a successful run, a positive [max_lines = n] keeps exactly
    the first [n] newline-delimited segments of stdout; [None] and [0]
    return stdout as it is; and so does a call through the dispatcher whose
    arguments have no [max_lines] entry. *)
Theorem C5_truncation (w : World) (file_path p out err : string) :
  valid_pdf w file_path p ->
  subprocess_run w ["pdftotext"; p; "-"] 60 = exits 0 out err ->
  (∀ n, 0 < n ->
     let text := PyStr.join PyStr.nl (take (Z.to_nat n) (segments out)) in
     outcome_of (extract_pdf_text w (VStr file_path) (VInt n))
     = Return (text_payload p text (segment_count text))
     ∧ segments text = take (Z.to_nat n) (segments out))
  ∧ (∀ max_lines, max_lines = VNone ∨ max_lines = VInt 0 ->
       outcome_of (extract_pdf_text w (VStr file_path) max_lines)
       = Return (text_payload p out (segment_count out)))
  ∧ (∀ arguments : gmap string value,
       arguments !! "file_path" = Some (VStr file_path) ->
       arguments !! "max_lines" = None ->
       outcome_of (call_tool w "extract_pdf_text" arguments)
       = Return (text_payload p out (segment_count out))).
Proof.
  intros Hvalid Hrun. split; [|split].
  - intros n Hn text. split.
    + rewrite (extract_pdf_text_truncated w file_path p out err (VInt n)
                 (take (Z.to_nat n) (segments out)) Hvalid Hrun).
      * reflexivity.
      * apply truthy_nonzero. lia.
      * cbn [slice_to]. destruct (Z.ltb_spec n 0); [lia | reflexivity].
    + apply segments_join_take. lia.
  - intros max_lines Hfalsy.
    rewrite (extract_pdf_text_untruncated w file_path p out err max_lines
               Hvalid Hrun); [reflexivity|].
    destruct Hfalsy as [-> | ->]; reflexivity.
  - intros arguments Hpath Habsent. unfold call_tool, getitem, get.
    rewrite bool_decide_true by reflexivity.
    rewrite Hpath, bind_ret, Habsent. cbn [default].
    rewrite (extract_pdf_text_untruncated w file_path p out err VNone
               Hvalid Hrun eq_refl).
    reflexivity.
Qed.

Lemma C5_truncation_witness :
  outcome_of (extract_pdf_text (tool_stub (exits 0 abc "")) (VStr "/doc.pdf")
                (VInt 1))
  = Return (text_payload "/doc.pdf" "A" 1)
  ∧ outcome_of (extract_pdf_text (tool_stub (exits 0 abc "")) (VStr "/doc.pdf")
                  (VInt 0))
    = Return (text_payload "/doc.pdf" abc 4).
Proof.
  destruct (C5_truncation (tool_stub (exits 0 abc "")) "/doc.pdf" "/doc.pdf"
              abc "") as (Hpos & Hzero & _).
  - apply valid_pdf_stub. reflexivity.
  - reflexivity.
  - split.
    + exact (proj1 (Hpos 1 eq_refl)).
    + exact (Hzero (VInt 0) (or_intror eq_refl)).
Defined.

(** C10, as the code has it. After a successful run, a negative
    [max_lines = n] is neither a limit nor "no limit": the text is stdout
    without its last [|n|] newline-delimited segments. When some segment
    remains, [lines] is the number of segments of stdout minus [|n|]; in
    particular [max_lines = -1] on a stdout of at least two segments keeps
    all but the last and counts one less. When no segment remains, the text
    is empty and [lines] is 1. *)
Theorem C10_negative_max_lines (w : World) (file_path p out err : string)
    (n : Z) :
  valid_pdf w file_path p ->
  subprocess_run w ["pdftotext"; p; "-"] 60 = exits 0 out err ->
  n < 0 ->
  let total := length (segments out) in
  let kept := take (total - Z.to_nat (- n)) (segments out) in
  let text := PyStr.join PyStr.nl kept in
  outcome_of (extract_pdf_text w (VStr file_path) (VInt n))
  = Return (text_payload p text (segment_count text))
  ∧ ((Z.to_nat (- n) < total)%nat ->
     segments text = kept ∧ segment_count text = Z.of_nat total + n)
  ∧ ((total <= Z.to_nat (- n))%nat -> text = "" ∧ segment_count text = 1).
Proof.
  intros Hvalid Hrun Hn total kept text. split; [|split].
  - rewrite (extract_pdf_text_truncated w file_path p out err (VInt n) kept
               Hvalid Hrun).
    + reflexivity.
    + apply truthy_nonzero. lia.
    + cbn [slice_to]. destruct (Z.ltb_spec n 0); [|lia].
      unfold kept, total. do 2 f_equal. lia.
  - intros Hsome.
    assert (segments text = kept) as Hsegs
      by (apply segments_join_take; lia).
    split; [exact Hsegs|].
    unfold segment_count. rewrite Hsegs. unfold kept.
    rewrite length_take. fold total. lia.
  - intros Hnone. unfold text, kept.
    replace (total - Z.to_nat (- n))%nat with 0%nat by lia.
    split; reflexivity.
Qed.

Lemma C10_negative_max_lines_witness :
  outcome_of (extract_pdf_text (tool_stub (exits 0 abc "")) (VStr "/doc.pdf")
                (VInt (-1)))
  = Return (text_payload "/doc.pdf"
              ("A" +:+ PyStr.nl +:+ "B" +:+ PyStr.nl +:+ "C") 3).
Proof.
  destruct (C10_negative_max_lines (tool_stub (exits 0 abc "")) "/doc.pdf"
              "/doc.pdf" abc "" (-1)) as (Hcall & _ & _).
  - apply valid_pdf_stub. reflexivity.
  - reflexivity.
  - lia.
  - exact Hcall.
Defined.

(** C10 as stated fails: stdout ["abc"] is one segment, and with
    [max_lines = -1] the [lines] field is not 1 - 1. *)
Lemma C10_counterexample :
  length (segments "abc") = 1%nat
  ∧ ¬ ∃ d,
        outcome_of (extract_pdf_text (tool_stub (exits 0 "abc" ""))
                      (VStr "/doc.pdf") (VInt (-1))) = Return d
        ∧ d !! "lines" = Some (Scalar (VInt (1 - 1))).
Proof.
  split; [reflexivity|].
  intros (d & Hd & Hlines).
  rewrite (extract_pdf_text_truncated (tool_stub (exits 0 "abc" ""))
             "/doc.pdf" "/doc.pdf" "abc" "" (VInt (-1)) []) in Hd;
    [| apply valid_pdf_stub; reflexivity | reflexivity | reflexivity
     | reflexivity].
  injection Hd as <-. vm_compute in Hlines. discriminate Hlines.
Qed.

(** ** The dispatcher *)

Lemma error_is_response (msg : string) : is_response (error msg).
Proof. left. exists msg. reflexivity. Qed.

#[local] Hint Resolve error_is_response : core.

Ltac respond := eexists; split; [reflexivity | auto; right; reflexivity].

Lemma extract_pdf_text_responds (w : World) (file_path p : string) (b : bool)
    (max_lines : value) :
  resolve w file_path = Return p ->
  path_exists w p = Return b ->
  ∃ d, outcome_of (extract_pdf_text w (VStr file_path) max_lines) = Return d
       ∧ is_response d.
Proof.
  intros Hr He. unfold extract_pdf_text, resolved.
  rewrite Hr, bind_lift_return, He, bind_lift_return.
  destruct b; cbn [negb]; [|respond].
  destruct (bool_decide _); cbn [negb]; [|respond].
  unfold run. destruct (subprocess_run w _ _) as [cp | [c msg]];
    cbn [bind try_except ret raise lift exn_type exn_str app].
  - destruct (returncode cp =? 0); cbn [negb]; [|respond].
    destruct (truthy max_lines); [|respond].
    destruct (slice_to _ max_lines) as [kept | [c msg]];
      cbn [bind try_except ret raise lift exn_type exn_str app]; [respond|].
    destruct c; respond.
  - destruct c; respond.
Qed.

Lemma extract_pdf_metadata_responds (w : World) (file_path p : string)
    (b : bool) :
  resolve w file_path = Return p ->
  path_exists w p = Return b ->
  ∃ d, outcome_of (extract_pdf_metadata w (VStr file_path)) = Return d
       ∧ is_response d.
Proof.
  intros Hr He. unfold extract_pdf_metadata, resolved.
  rewrite Hr, bind_lift_return, He, bind_lift_return.
  destruct b; cbn [negb]; [|respond].
  destruct (bool_decide _); cbn [negb]; [|respond].
  unfold run. destruct (subprocess_run w _ _) as [cp | [c msg]];
    cbn [bind try_except ret raise lift exn_type exn_str app].
  - destruct (returncode cp =? 0); cbn [negb]; [|respond].
    rewrite metadata_loop_entries.
    cbn [bind try_except ret raise lift exn_type exn_str app]. respond.
  - destruct c; respond.
Qed.

Lemma extract_pdf_section_responds (w : World) (file_path p : string)
    (b : bool) (start_page end_page : Z) :
  resolve w file_path = Return p ->
  path_exists w p = Return b ->
  ∃ d, outcome_of (extract_pdf_section w (VStr file_path) (VInt start_page)
                     (VInt end_page)) = Return d
       ∧ is_response d.
Proof.
  intros Hr He. unfold extract_pdf_section, resolved.
  rewrite Hr, bind_lift_return, He, bind_lift_return.
  destruct b; cbn [negb]; [|respond].
  destruct (bool_decide _); cbn [negb]; [|respond].
  unfold py_lt. cbn [as_number]. rewrite bind_lift_return.
  destruct (start_page <? 1); [rewrite bind_ret; respond|].
  rewrite bind_lift_return.
  destruct (end_page <? start_page); [respond|].
  unfold run. destruct (subprocess_run w _ _) as [cp | [c msg]];
    cbn [bind try_except ret raise lift exn_type exn_str app].
  - destruct (returncode cp =? 0); cbn [negb]; respond.
  - destruct c; respond.
Qed.

Lemma tools_cases (name : string) :
  name ∈ tools
  ↔ name = "extract_pdf_text" ∨ name = "extract_pdf_metadata"
    ∨ name = "extract_pdf_section".
Proof. unfold tools. rewrite !elem_of_cons, elem_of_nil. tauto. Qed.

(** C7, as the code has it. [call_tool] raises [ValueError] for every tool
    name other than the three, and launches nothing. That is not the only
    way it raises: under a known name, a missing [file_path] argument
    raises [KeyError]. When [file_path] is a string whose resolution and
    existence test do not themselves raise (and, for the page-range
    operation, [start_page] and [end_page] are integers), [call_tool] does
    not raise: every other failure comes back as an error dictionary, and
    anything else as a success dictionary. *)
Theorem C7_dispatch (w : World) (name : string) (arguments : gmap string value) :
  (name ∉ tools ->
   call_tool w name arguments
   = (Raise (Exn ValueError ("Unknown tool: " +:+ name)), []))
  ∧ (name ∈ tools ->
     arguments !! "file_path" = None ->
     call_tool w name arguments = (Raise (Exn KeyError "'file_path'"), []))
  ∧ (name ∈ tools ->
     ∀ file_path p b,
       arguments !! "file_path" = Some (VStr file_path) ->
       resolve w file_path = Return p ->
       path_exists w p = Return b ->
       (name = "extract_pdf_section" ->
        ∃ s e, arguments !! "start_page" = Some (VInt s)
               ∧ arguments !! "end_page" = Some (VInt e)) ->
       ∃ d, outcome_of (call_tool w name arguments) = Return d
            ∧ is_response d).
Proof.
  rewrite tools_cases. split; [|split].
  - intros Hname. unfold call_tool.
    rewrite !bool_decide_false; [reflexivity | | |]; intros ->; tauto.
  - intros Hname Hmissing. unfold call_tool, getitem. rewrite Hmissing.
    repeat case_bool_decide; try reflexivity. tauto.
  - intros Hname file_path p b Hpath Hr He Hpages.
    unfold call_tool, getitem. rewrite Hpath, !bind_ret.
    repeat case_bool_decide.
    + eapply extract_pdf_text_responds; eassumption.
    + eapply extract_pdf_metadata_responds; eassumption.
    + destruct (Hpages ltac:(assumption)) as (s & e & -> & ->).
      rewrite !bind_ret.
      eapply extract_pdf_section_responds; eassumption.
    + tauto.
Qed.

Lemma C7_dispatch_witness :
  call_tool (tool_stub (exits 0 "text" "")) "render_pdf" ∅
  = (Raise (Exn ValueError "Unknown tool: render_pdf"), []).
Proof.
  apply (C7_dispatch (tool_stub (exits 0 "text" "")) "render_pdf" ∅).
  rewrite tools_cases. intros [H | [H | H]]; discriminate H.
Defined.

(** C7 as stated fails: under the known name [extract_pdf_text], a call
    without arguments makes the dispatcher raise. *)
Lemma C7_counterexample :
  "extract_pdf_text" ∈ tools
  ∧ call_tool (tool_stub (exits 0 "text" "")) "extract_pdf_text" ∅
    = (Raise (Exn KeyError "'file_path'"), []).
Proof.
  split; [apply tools_cases; left; reflexivity | reflexivity].
Qed.

(** ** The catalogue and the dispatcher *)

Lemma has_type_string (v : value) :
  has_type "string" v = true -> ∃ s, v = VStr s.
Proof. destruct v; try discriminate. eauto. Qed.

Lemma has_type_integer (v : value) :
  has_type "integer" v = true -> ∃ z, v = VInt z.
Proof. destruct v; try discriminate. eauto. Qed.

Lemma first_missing_None (keys : list string) (arguments : gmap string value) :
  first_missing keys arguments = None ->
  ∀ k, k ∈ keys -> is_Some (arguments !! k).
Proof.
  induction keys as [|k0 keys IH]; intros Hnone k Hk.
  - apply elem_of_nil in Hk. destruct Hk.
  - cbn [first_missing] in Hnone.
    destruct (arguments !! k0) as [v|] eqn:Hk0; [|discriminate].
    apply elem_of_cons in Hk as [-> | Hk]; [eauto | apply (IH Hnone k Hk)].
Qed.

(** A conforming request has, under a required key, a value of the type
    the schema declares for it. *)
Lemma conforms_typed (s : types.Schema) (arguments : gmap string value)
    (k ty : string) :
  conforms s arguments ->
  k ∈ types.required s ->
  types.properties s !! k ≫= (.!! "type") = Some ty ->
  ∃ v, arguments !! k = Some v ∧ has_type ty v = true.
Proof.
  intros [Hreq Htyped] Hk Hty.
  destruct (first_missing_None _ _ Hreq k Hk) as [v Hv].
  exists v. split; [exact Hv | exact (Htyped k v ty Hv Hty)].
Qed.

(** X1. The names [list_tools] advertises are pairwise distinct, and
    [call_tool] refuses with [ValueError("Unknown tool: <name>")], launching
    nothing, every name that [list_tools] does not advertise. *)
Theorem X1_unadvertised_refused (w : World) (name : string)
    (arguments : gmap string value) :
  NoDup (types.name <$> list_tools)
  ∧ (name ∉ types.name <$> list_tools ->
     call_tool w name arguments
     = (Raise (Exn ValueError ("Unknown tool: " +:+ name)), [])).
Proof.
  split.
  - cbn [fmap list_fmap list_tools types.name].
    repeat (apply NoDup_cons; split;
            [rewrite ?elem_of_cons, elem_of_nil; intros H;
             repeat (destruct H as [H|H]; [discriminate H|]); exact H |]).
    apply NoDup_nil_2.
  - change (types.name <$> list_tools) with tools. rewrite tools_cases.
    intros Hname. unfold call_tool.
    rewrite !bool_decide_false; [reflexivity | | |]; intros ->; tauto.
Qed.

Lemma X1_unadvertised_refused_witness :
  call_tool (tool_stub (exits 0 "text" "")) "extract_pdf_pages"
    {[ "file_path" := VStr "/doc.pdf" ]}
  = (Raise (Exn ValueError "Unknown tool: extract_pdf_pages"), []).
Proof.
  apply (X1_unadvertised_refused (tool_stub (exits 0 "text" ""))
           "extract_pdf_pages" {[ "file_path" := VStr "/doc.pdf" ]}).
  change (types.name <$> list_tools) with tools. rewrite tools_cases.
  intros [H | [H | H]]; discriminate H.
Defined.

(** X2. The keys a tool's schema lists as required are the keys
    [call_tool] insists on, in that order: when [k] is the first required
    key the arguments lack, the call raises [KeyError(k)] before looking at
    the file system and without launching anything. *)
Theorem X2_required_keys (w : World) (t : types.Tool)
    (arguments : gmap string value) (k : string) :
  t ∈ list_tools ->
  first_missing (types.required (types.inputSchema t)) arguments = Some k ->
  call_tool w (types.name t) arguments
  = (Raise (Exn KeyError ("'" +:+ k +:+ "'")), []).
Proof.
  intros Ht Hk. unfold list_tools in Ht.
  rewrite !elem_of_cons, elem_of_nil in Ht.
  destruct Ht as [-> | [-> | [-> | []]]];
    cbn [types.name types.inputSchema types.required first_missing] in *;
    unfold call_tool, getitem.
  - rewrite bool_decide_true by reflexivity.
    destruct (arguments !! "file_path"); [discriminate|].
    injection Hk as <-. reflexivity.
  - rewrite bool_decide_false by discriminate.
    rewrite bool_decide_true by reflexivity.
    destruct (arguments !! "file_path"); [discriminate|].
    injection Hk as <-. reflexivity.
  - rewrite !bool_decide_false by discriminate.
    rewrite bool_decide_true by reflexivity.
    destruct (arguments !! "file_path"); [|injection Hk as <-; reflexivity].
    rewrite bind_ret.
    destruct (arguments !! "start_page"); [|injection Hk as <-; reflexivity].
    rewrite bind_ret.
    destruct (arguments !! "end_page"); [discriminate|].
    injection Hk as <-. reflexivity.
Qed.

Lemma X2_required_keys_witness :
  call_tool (empty_disk (exits 0 "text" "")) "extract_pdf_section"
    {[ "file_path" := VStr "/gone.pdf"; "start_page" := VInt 1 ]}
  = (Raise (Exn KeyError "'end_page'"), []).
Proof.
  refine (X2_required_keys (empty_disk (exits 0 "text" ""))
            {| types.name := "extract_pdf_section";
               types.description := _; types.inputSchema := _ |}
            {[ "file_path" := VStr "/gone.pdf"; "start_page" := VInt 1 ]}
            "end_page" _ _).
  - unfold list_tools. rewrite !elem_of_cons. right. right. left. reflexivity.
  - vm_compute. reflexivity.
Defined.

(** X3. A request for an advertised tool whose arguments are valid against
    that tool's schema is answered, not raised, provided resolving the path
    and testing its existence do not themselves raise: the call returns an
    error dictionary or a success dictionary. *)
Theorem X3_conforming_request_answered (w : World) (t : types.Tool)
    (arguments : gmap string value) :
  t ∈ list_tools ->
  conforms (types.inputSchema t) arguments ->
  (∀ file_path, arguments !! "file_path" = Some (VStr file_path) ->
     ∃ p b, resolve w file_path = Return p ∧ path_exists w p = Return b) ->
  ∃ d, outcome_of (call_tool w (types.name t) arguments) = Return d
       ∧ is_response d.
Proof.
  intros Ht Hconf Hworld. unfold list_tools in Ht.
  rewrite !elem_of_cons, elem_of_nil in Ht.
  destruct Ht as [-> | [-> | [-> | []]]];
    cbn [types.name types.inputSchema] in *;
    (destruct (conforms_typed _ _ "file_path" "string" Hconf)
      as (v & Hv & Hty);
     [cbn [types.required]; rewrite elem_of_cons; auto | reflexivity |]);
    apply has_type_string in Hty as [s ->];
    destruct (Hworld s Hv) as (p & b & Hr & He);
    unfold call_tool, getitem.
  - rewrite bool_decide_true by reflexivity.
    rewrite Hv, bind_ret. eapply extract_pdf_text_responds; eassumption.
  - rewrite bool_decide_false by discriminate.
    rewrite bool_decide_true by reflexivity.
    rewrite Hv, bind_ret. eapply extract_pdf_metadata_responds; eassumption.
  - destruct (conforms_typed _ _ "start_page" "integer" Hconf)
      as (v1 & Hv1 & Hty1);
      [cbn [types.required]; rewrite !elem_of_cons; auto | reflexivity |].
    apply has_type_integer in Hty1 as [z1 ->].
    destruct (conforms_typed _ _ "end_page" "integer" Hconf)
      as (v2 & Hv2 & Hty2);
      [cbn [types.required]; rewrite !elem_of_cons; auto | reflexivity |].
    apply has_type_integer in Hty2 as [z2 ->].
    rewrite !bool_decide_false by discriminate.
    rewrite bool_decide_true by reflexivity.
    rewrite Hv, bind_ret, Hv1, bind_ret, Hv2, bind_ret.
    eapply extract_pdf_section_responds; eassumption.
Qed.

Lemma X3_conforming_request_answered_witness :
  ∃ d, outcome_of (call_tool (tool_stub (exits 0 "text" ""))
                     "extract_pdf_metadata"
                     {[ "file_path" := VStr "/doc.pdf" ]}) = Return d
       ∧ is_response d.
Proof.
  refine (X3_conforming_request_answered (tool_stub (exits 0 "text" ""))
            {| types.name := "extract_pdf_metadata";
               types.description := _; types.inputSchema := _ |}
            {[ "file_path" := VStr "/doc.pdf" ]} _ _ _).
  - unfold list_tools. rewrite !elem_of_cons. right. left. reflexivity.
  - split; [reflexivity|]. intros k v ty Hk Hty.
    cbn [types.inputSchema types.properties] in Hty.
    destruct (decide (k = "file_path")) as [-> | Hne].
    + rewrite lookup_singleton_eq in Hk. injection Hk as <-.
      vm_compute in Hty. injection Hty as <-. reflexivity.
    + rewrite lookup_singleton_ne in Hk by congruence. discriminate Hk.
  - intros file_path _. exists file_path, true. split; reflexivity.
Defined.

(** X4. [call_tool] reads only the arguments the tool's schema describes:
    two argument dictionaries that agree on the schema's properties get the
    same outcome and the same launches. *)
Theorem X4_undeclared_arguments_ignored (w : World) (t : types.Tool)
    (arguments others : gmap string value) :
  t ∈ list_tools ->
  (∀ k, is_Some (types.properties (types.inputSchema t) !! k) ->
        arguments !! k = others !! k) ->
  call_tool w (types.name t) arguments = call_tool w (types.name t) others.
Proof.
  intros Ht Hsame. unfold list_tools in Ht.
  rewrite !elem_of_cons, elem_of_nil in Ht.
  destruct Ht as [-> | [-> | [-> | []]]];
    cbn [types.name types.inputSchema types.properties] in Hsame;
    unfold call_tool, getitem, get.
  - rewrite (Hsame "file_path") by (eexists; reflexivity).
    rewrite (Hsame "max_lines") by (eexists; reflexivity). reflexivity.
  - rewrite (Hsame "file_path") by (eexists; reflexivity). reflexivity.
  - rewrite (Hsame "file_path") by (eexists; reflexivity).
    rewrite (Hsame "start_page") by (eexists; reflexivity).
    rewrite (Hsame "end_page") by (eexists; reflexivity). reflexivity.
Qed.

Lemma X4_undeclared_arguments_ignored_witness :
  call_tool (tool_stub (exits 0 "Title: Report" "")) "extract_pdf_metadata"
    {[ "file_path" := VStr "/doc.pdf"; "verbose" := VBool true ]}
  = call_tool (tool_stub (exits 0 "Title: Report" "")) "extract_pdf_metadata"
      {[ "file_path" := VStr "/doc.pdf" ]}.
Proof.
  refine (X4_undeclared_arguments_ignored
            (tool_stub (exits 0 "Title: Report" ""))
            {| types.name := "extract_pdf_metadata";
               types.description := _; types.inputSchema := _ |}
            {[ "file_path" := VStr "/doc.pdf"; "verbose" := VBool true ]}
            {[ "file_path" := VStr "/doc.pdf" ]} _ _).
  - unfold list_tools. rewrite !elem_of_cons. right. left. reflexivity.
  - intros k Hk. cbn [types.inputSchema types.properties] in Hk.
    destruct (decide (k = "file_path")) as [-> | Hne].
    + reflexivity.
    + rewrite lookup_singleton_ne in Hk by congruence.
      destruct Hk as [? Hk]. discriminate Hk.
Defined.

(** ** What every call keeps to *)

Ltac case_on x := destruct x eqn:?.

(** Split on the next test a handler makes, in the order it makes them. *)
Ltac step :=
  match goal with
  | |- context [resolve ?w ?s] => case_on (resolve w s)
  | |- context [path_exists ?w ?s] => case_on (path_exists w s)
  | |- context [negb ?b] => is_var b; destruct b
  | |- context [bool_decide ?P] => case_on (bool_decide P)
  | |- context [py_lt ?a ?b] => case_on (py_lt a b)
  | |- context [subprocess_run ?w ?a ?t] => case_on (subprocess_run w a t)
  | |- context [returncode ?c =? 0] => case_on (returncode c =? 0)
  | |- context [truthy ?v] => case_on (truthy v)
  | |- context [slice_to ?l ?v] => case_on (slice_to l v)
  | |- context [exn_type ?e] => case_on (exn_type e)
  | |- context [if ?b then _ else _] => is_var b; destruct b
  end;
  cbn [bind try_except ret raise lift app negb fst snd].

Ltac settle_launches :=
  first
    [ left; reflexivity
    | match goal with
      | Hr : resolve _ ?s = Return ?p,
        He : path_exists _ ?p = Return true,
        Hs : bool_decide _ = true |- _ =>
          right; exists s, p; eexists; split; [reflexivity|];
          split; [exact (conj Hr (conj He (bool_decide_eq_true_1 _ Hs)))|];
          split; [reflexivity|];
          first [ left; reflexivity
                | right; left; reflexivity
                | right; right; do 2 eexists; reflexivity ]
      end ].

Ltac settle_shape :=
  let d := fresh "d" in
  let Hd := fresh "Hd" in
  intros d Hd;
  first
    [ discriminate Hd
    | injection Hd as <-;
      first [ left; split; [eexists; reflexivity | reflexivity]
            | right; split; [reflexivity|];
              split; [reflexivity | eexists; reflexivity] ] ].

Ltac settle := split; [settle_launches | settle_shape].

Lemma extract_pdf_text_orderly (w : World) (file_path max_lines : value) :
  orderly w file_path (extract_pdf_text w file_path max_lines).
Proof.
  unfold orderly, extract_pdf_text, resolved, run.
  destruct file_path; cbn [bind try_except ret raise lift app negb fst snd];
    try settle.
  repeat step; settle.
Qed.

Lemma extract_pdf_metadata_orderly (w : World) (file_path : value) :
  orderly w file_path (extract_pdf_metadata w file_path).
Proof.
  unfold orderly, extract_pdf_metadata, resolved, run.
  destruct file_path; cbn [bind try_except ret raise lift app negb fst snd];
    try settle.
  repeat step; try rewrite metadata_loop_entries;
    cbn [bind try_except ret raise lift app negb fst snd]; settle.
Qed.

Lemma extract_pdf_section_orderly (w : World)
    (file_path start_page end_page : value) :
  orderly w file_path (extract_pdf_section w file_path start_page end_page).
Proof.
  unfold orderly, extract_pdf_section, resolved, run.
  destruct file_path; cbn [bind try_except ret raise lift app negb fst snd];
    try settle.
  repeat step; settle.
Qed.

Lemma call_tool_orderly (w : World) (name : string)
    (arguments : gmap string value) :
  orderly w (get arguments "file_path") (call_tool w name arguments).
Proof.
  unfold call_tool, getitem, get.
  repeat case_bool_decide; [| | |settle];
    (destruct (arguments !! "file_path") as [v|]; [|settle]);
    rewrite bind_ret.
  - apply extract_pdf_text_orderly.
  - apply extract_pdf_metadata_orderly.
  - destruct (arguments !! "start_page"); [|settle]. rewrite bind_ret.
    destruct (arguments !! "end_page"); [|settle]. rewrite bind_ret.
    apply extract_pdf_section_orderly.
Qed.

(** X5. Whatever the tool name, the arguments and the world, a call
    launches at most one process, and only ever one of the server's three
    command lines (pdftotext with a 60 second timeout, pdfinfo with 30), on
    the resolved path of a [file_path] argument that is a string naming an
    existing .pdf file. *)
Theorem X5_launch_safety (w : World) (name : string)
    (arguments : gmap string value) (l : Invocation) :
  l ∈ snd (call_tool w name arguments) ->
  snd (call_tool w name arguments) = [l]
  ∧ ∃ file_path p,
      arguments !! "file_path" = Some (VStr file_path)
      ∧ valid_pdf w file_path p
      ∧ launch_on p l.
Proof.
  intros Hl.
  destruct (call_tool_orderly w name arguments) as [[Hnone | Hone] _].
  - rewrite Hnone in Hl. apply elem_of_nil in Hl. destruct Hl.
  - destruct Hone as (s & p & l' & Hpath & Hvalid & Hsnd & Hon).
    rewrite Hsnd in Hl. apply list_elem_of_singleton in Hl. subst l'.
    split; [exact Hsnd|]. exists s, p. split; [|split; assumption].
    unfold get in Hpath. destruct (arguments !! "file_path") as [v|];
      simpl in Hpath; [congruence | discriminate].
Qed.

Lemma X5_launch_safety_witness :
  snd (call_tool (tool_stub (exits 0 "Title: Report" ""))
         "extract_pdf_metadata" {[ "file_path" := VStr "/doc.pdf" ]})
  = [Launch ["pdfinfo"; "/doc.pdf"] 30].
Proof.
  apply (X5_launch_safety (tool_stub (exits 0 "Title: Report" ""))
           "extract_pdf_metadata" {[ "file_path" := VStr "/doc.pdf" ]}
           (Launch ["pdfinfo"; "/doc.pdf"] 30)).
  apply list_elem_of_singleton. reflexivity.
Defined.

(** X6. Whatever [call_tool] returns is either a dictionary with the single
    entry ["error"], or a dictionary with ["success": True] and the file's
    path and no ["error"] entry; never both, never neither. *)
Theorem X6_response_shape (w : World) (name : string)
    (arguments : gmap string value) (d : gmap string field) :
  outcome_of (call_tool w name arguments) = Return d ->
  error_only d ∨ success_only d.
Proof. apply call_tool_orderly. Qed.

Lemma X6_response_shape_witness :
  error_only (error "File must be a PDF")
  ∨ success_only (error "File must be a PDF").
Proof.
  apply (X6_response_shape (tool_stub (exits 0 "text" ""))
           "extract_pdf_text" {[ "file_path" := VStr "/notes.txt" ]}).
  reflexivity.
Defined.

(** ** More on text extraction *)

Lemma append_empty_r (s : string) : s +:+ "" = s.
Proof.
  induction s as [|a s IH]; [reflexivity|].
  rewrite append_cons, IH. reflexivity.
Qed.

Lemma starts_with_refl (s : string) : starts_with s s.
Proof. exists "". symmetry. apply append_empty_r. Qed.

Lemma starts_with_empty (s : string) : starts_with "" s.
Proof. exists s. reflexivity. Qed.

Lemma starts_with_cons (a : ascii) (pre s : string) :
  starts_with pre s -> starts_with (String a pre) (String a s).
Proof. intros [rest ->]. exists rest. reflexivity. Qed.

Lemma join_cons_char (sep : string) (a : ascii) (h : string)
    (l : list string) :
  PyStr.join sep (String a h :: l) = String a (PyStr.join sep (h :: l)).
Proof. destruct l; reflexivity. Qed.

Lemma join_empty_head (c : ascii) (l : list string) :
  l ≠ [] ->
  PyStr.join (String c "") ("" :: l) = String c (PyStr.join (String c "") l).
Proof. destruct l; [congruence | reflexivity]. Qed.

(** Joining the first segments of a text gives back a prefix of it. *)
Lemma join_take_prefix (c : ascii) (s : string) :
  ∀ k, starts_with (PyStr.join (String c "") (take k (PyStr.split c s))) s.
Proof.
  induction s as [|a s IH]; intros [|k]; try apply starts_with_empty.
  { destruct k; exists ""; reflexivity. }
  cbn [PyStr.split]. destruct (decide (a = c)) as [-> | Hne].
  - cbn [take]. destruct (take k (PyStr.split c s)) as [|x l] eqn:Htake.
    + apply starts_with_empty.
    + rewrite join_empty_head by discriminate.
      apply starts_with_cons. rewrite <- Htake. apply IH.
  - specialize (IH (S k)). pose proof (split_not_nil c s) as Hnil.
    destruct (PyStr.split c s) as [|h t]; [congruence|].
    cbn [take]. cbn [take] in IH. rewrite join_cons_char.
    apply starts_with_cons, IH.
Qed.

(** Joining all the segments of a text gives the text back. *)
Lemma join_split (c : ascii) (s : string) :
  PyStr.join (String c "") (PyStr.split c s) = s.
Proof.
  induction s as [|a s IH]; [reflexivity|].
  cbn [PyStr.split]. destruct (decide (a = c)) as [-> | Hne].
  - rewrite join_empty_head by apply split_not_nil. rewrite IH. reflexivity.
  - pose proof (split_not_nil c s) as Hnil.
    destruct (PyStr.split c s) as [|h t]; [congruence|].
    rewrite join_cons_char, IH. reflexivity.
Qed.

Lemma segment_count_pos (text : string) : 1 <= segment_count text.
Proof.
  unfold segment_count, segments.
  pose proof (split_not_nil PyStr.newline text) as H.
  destruct (PyStr.split PyStr.newline text); [congruence|].
  cbn [length]. lia.
Qed.

Lemma segment_count_join_take (k : nat) (out : string) :
  segment_count (PyStr.join PyStr.nl (take k (segments out)))
  = Z.max 1 (Z.min (Z.of_nat k) (segment_count out)).
Proof.
  pose proof (segment_count_pos out) as Hpos.
  destruct k as [|k].
  - change (segment_count (PyStr.join PyStr.nl (take 0 (segments out))))
      with 1. lia.
  - unfold segment_count at 1. rewrite segments_join_take by lia.
    rewrite length_take. unfold segment_count in *. lia.
Qed.

(** X7. After a successful run, for [max_lines] absent or any integer
    (positive, zero or negative), the returned text is a prefix of the
    tool's stdout: truncation only cuts, it never rewrites. The [lines]
    field is at least 1, even for an empty text, and at most the number of
    newline-delimited segments of stdout. *)
Theorem X7_text_is_prefix (w : World) (file_path p out err : string)
    (max_lines : value) :
  valid_pdf w file_path p ->
  subprocess_run w ["pdftotext"; p; "-"] 60 = exits 0 out err ->
  max_lines = VNone ∨ (∃ n, max_lines = VInt n) ->
  ∃ text lines,
    outcome_of (extract_pdf_text w (VStr file_path) max_lines)
    = Return (text_payload p text lines)
    ∧ starts_with text out
    ∧ 1 <= lines <= segment_count out.
Proof.
  intros Hvalid Hrun Hschema.
  pose proof (segment_count_pos out) as Hpos.
  destruct (truthy max_lines) eqn:Htruthy.
  - destruct Hschema as [-> | [n ->]]; [discriminate|].
    eexists _, _. split; [|split].
    + rewrite (extract_pdf_text_truncated w file_path p out err (VInt n) _
                 Hvalid Hrun Htruthy eq_refl). reflexivity.
    + apply join_take_prefix.
    + rewrite segment_count_join_take. lia.
  - exists out, (segment_count out). split; [|split].
    + rewrite (extract_pdf_text_untruncated w file_path p out err max_lines
                 Hvalid Hrun Htruthy). reflexivity.
    + apply starts_with_refl.
    + lia.
Qed.

Lemma X7_text_is_prefix_witness :
  ∃ text lines,
    outcome_of (extract_pdf_text (tool_stub (exits 0 abc "")) (VStr "/doc.pdf")
                  (VInt (-7)))
    = Return (text_payload "/doc.pdf" text lines)
    ∧ starts_with text abc
    ∧ 1 <= lines <= segment_count abc.
Proof.
  apply (X7_text_is_prefix (tool_stub (exits 0 abc "")) "/doc.pdf" "/doc.pdf"
           abc "" (VInt (-7))).
  - apply valid_pdf_stub. reflexivity.
  - reflexivity.
  - right. exists (-7). reflexivity.
Defined.

(** X8. After a successful run with a positive [max_lines = n], the [lines]
    field is the smaller of [n] and the number of newline-delimited
    segments of stdout; and when [n] is at least that number the text is
    stdout, unchanged. *)
Theorem X8_lines_is_minimum (w : World) (file_path p out err : string)
    (n : Z) :
  valid_pdf w file_path p ->
  subprocess_run w ["pdftotext"; p; "-"] 60 = exits 0 out err ->
  0 < n ->
  ∃ text,
    outcome_of (extract_pdf_text w (VStr file_path) (VInt n))
    = Return (text_payload p text (Z.min n (segment_count out)))
    ∧ (segment_count out <= n -> text = out).
Proof.
  intros Hvalid Hrun Hn.
  pose proof (segment_count_pos out) as Hpos.
  exists (PyStr.join PyStr.nl (take (Z.to_nat n) (segments out))). split.
  - rewrite (extract_pdf_text_truncated w file_path p out err (VInt n)
               (take (Z.to_nat n) (segments out)) Hvalid Hrun).
    + rewrite segment_count_join_take.
      replace (Z.max 1 (Z.min (Z.of_nat (Z.to_nat n)) (segment_count out)))
        with (Z.min n (segment_count out)) by lia.
      reflexivity.
    + apply truthy_nonzero. lia.
    + cbn [slice_to]. destruct (Z.ltb_spec n 0); [lia | reflexivity].
  - intros Hall. rewrite take_ge by (unfold segment_count in Hall; lia).
    apply join_split.
Qed.

Lemma X8_lines_is_minimum_witness :
  ∃ text,
    outcome_of (extract_pdf_text (tool_stub (exits 0 abc "")) (VStr "/doc.pdf")
                  (VInt 100))
    = Return (text_payload "/doc.pdf" text (Z.min 100 (segment_count abc)))
    ∧ (segment_count abc <= 100 -> text = abc).
Proof.
  apply (X8_lines_is_minimum (tool_stub (exits 0 abc "")) "/doc.pdf"
           "/doc.pdf" abc "" 100).
  - apply valid_pdf_stub. reflexivity.
  - reflexivity.
  - lia.
Defined.

(** X9. When [max_lines] arrives as a string, after a successful run: the
    empty string counts as "no limit" and the whole stdout is returned; any
    other string makes the slice fail, and the call returns the generic
    error dictionary with Python's slice message, the process having been
    launched all the same. *)
Theorem X9_max_lines_as_string (w : World) (file_path p out err s : string) :
  valid_pdf w file_path p ->
  subprocess_run w ["pdftotext"; p; "-"] 60 = exits 0 out err ->
  extract_pdf_text w (VStr file_path) (VStr s)
  = (Return (if decide (s = "")
             then text_payload p out (segment_count out)
             else error ("Error extracting PDF: slice indices must be "
                         +:+ "integers or None or have an __index__ method")),
     [Launch ["pdftotext"; p; "-"] 60]).
Proof.
  intros Hvalid Hrun. destruct (decide (s = "")) as [-> | Hs].
  - apply (extract_pdf_text_untruncated w file_path p out err (VStr "")
             Hvalid Hrun eq_refl).
  - past_path_checks Hvalid. unfold exits in Hrun. launch Hrun.
    cbn [Z.eqb negb truthy]. rewrite bool_decide_false by exact Hs.
    reflexivity.
Qed.

Lemma X9_max_lines_as_string_witness :
  extract_pdf_text (tool_stub (exits 0 abc "")) (VStr "/doc.pdf") (VStr "2")
  = (Return (error ("Error extracting PDF: slice indices must be "
                    +:+ "integers or None or have an __index__ method")),
     [Launch ["pdftotext"; "/doc.pdf"; "-"] 60]).
Proof.
  apply (X9_max_lines_as_string (tool_stub (exits 0 abc "")) "/doc.pdf"
           "/doc.pdf" abc "" "2").
  - apply valid_pdf_stub. reflexivity.
  - reflexivity.
Defined.

(** ** More on metadata *)

Lemma lstrip_head (s : string) :
  PyStr.lstrip s = ""
  ∨ ∃ a t, PyStr.lstrip s = String a t ∧ PyStr.isspace a = false.
Proof.
  induction s as [|a s IH]; [left; reflexivity|].
  cbn [PyStr.lstrip]. destruct (PyStr.isspace a) eqn:Ha; [exact IH|].
  right. exists a, s. split; [reflexivity | exact Ha].
Qed.

Lemma rstrip_idempotent (s : string) :
  PyStr.rstrip (PyStr.rstrip s) = PyStr.rstrip s.
Proof.
  induction s as [|a s IH]; [reflexivity|].
  cbn [PyStr.rstrip]. destruct (PyStr.rstrip s) as [|b r] eqn:Hr.
  - destruct (PyStr.isspace a) eqn:Ha; [reflexivity|].
    cbn [PyStr.rstrip]. rewrite Ha. reflexivity.
  - change (PyStr.rstrip (String a (String b r)))
      with (match PyStr.rstrip (String b r) with
            | "" => if PyStr.isspace a then "" else String a ""
            | r' => String a r'
            end).
    rewrite IH. reflexivity.
Qed.

Lemma rstrip_keeps_head (a : ascii) (t : string) :
  PyStr.isspace a = false -> ∃ r, PyStr.rstrip (String a t) = String a r.
Proof.
  intros Ha. cbn [PyStr.rstrip]. destruct (PyStr.rstrip t) as [|b r].
  - rewrite Ha. exists "". reflexivity.
  - exists (String b r). reflexivity.
Qed.

(** Stripping twice strips nothing more. *)
Lemma strip_trimmed (s : string) : trimmed (PyStr.strip s).
Proof.
  unfold trimmed, PyStr.strip.
  destruct (lstrip_head s) as [-> | (a & t & -> & Ha)]; [reflexivity|].
  destruct (rstrip_keeps_head a t Ha) as [r Hr].
  rewrite Hr at 1. cbn [PyStr.lstrip]. rewrite Ha, <- Hr.
  apply rstrip_idempotent.
Qed.

Lemma contains_lstrip (c : ascii) (s : string) :
  PyStr.contains c s = false -> PyStr.contains c (PyStr.lstrip s) = false.
Proof.
  induction s as [|a s IH]; [reflexivity|].
  cbn [PyStr.lstrip]. destruct (PyStr.isspace a); [|tauto].
  cbn [PyStr.contains]. destruct (decide (a = c)); [discriminate | exact IH].
Qed.

Lemma contains_rstrip (c : ascii) (s : string) :
  PyStr.contains c s = false -> PyStr.contains c (PyStr.rstrip s) = false.
Proof.
  induction s as [|a s IH]; [reflexivity|].
  cbn [PyStr.contains PyStr.rstrip].
  destruct (decide (a = c)) as [|Hne]; [discriminate|]. intros H.
  specialize (IH H). destruct (PyStr.rstrip s) as [|b r].
  - destruct (PyStr.isspace a); [reflexivity|].
    cbn [PyStr.contains]. rewrite decide_False by exact Hne. reflexivity.
  - cbn [PyStr.contains]. rewrite decide_False by exact Hne. exact IH.
Qed.

Lemma contains_before_first (c : ascii) (s : string) :
  PyStr.contains c (before_first c s) = false.
Proof.
  induction s as [|a s IH]; [reflexivity|].
  cbn [before_first]. destruct (decide (a = c)) as [|Hne]; [reflexivity|].
  cbn [PyStr.contains]. rewrite decide_False by exact Hne. exact IH.
Qed.

(** A line with a [c] is what stands before its first [c], then [c], then
    what stands after. *)
Lemma cut_at_first (c : ascii) (s : string) :
  PyStr.contains c s = true ->
  s = before_first c s +:+ String c (after_first c s).
Proof.
  induction s as [|a s IH]; cbn [PyStr.contains before_first after_first].
  - discriminate.
  - destruct (decide (a = c)) as [-> | Hne]; [reflexivity|].
    intros H. rewrite append_cons, <- (IH H). reflexivity.
Qed.

Lemma lookup_foldl_store_elem (es : list (string * string)) (k v : string) :
  foldl store ∅ es !! k = Some v -> (k, v) ∈ es.
Proof.
  rewrite lookup_foldl_store.
  destruct (last _) as [[k' v']|] eqn:Hlast;
    [|rewrite lookup_empty; discriminate].
  intros [= <-]. apply last_Some_elem_of, list_elem_of_filter in Hlast.
  destruct Hlast as [Hk Hin]. cbn in Hk. subst k'. exact Hin.
Qed.

Lemma lookup_foldl_store_is_Some (es : list (string * string)) (k : string) :
  is_Some (foldl store ∅ es !! k) ↔ ∃ v, (k, v) ∈ es.
Proof.
  split.
  - intros [v Hv]. exists v. apply lookup_foldl_store_elem, Hv.
  - intros [v Hin]. rewrite lookup_foldl_store.
    destruct (last _) as [e|] eqn:Hlast; [eexists; reflexivity|].
    apply last_None in Hlast.
    exfalso. eapply (filter_nil_not_elem_of _ _ _ Hlast); [|exact Hin].
    reflexivity.
Qed.

Lemma extract_pdf_metadata_success (w : World) (file_path p out err : string) :
  valid_pdf w file_path p ->
  subprocess_run w ["pdfinfo"; p] 30 = exits 0 out err ->
  extract_pdf_metadata w (VStr file_path)
  = (Return (metadata_payload p (foldl store ∅ (spec_entries out))),
     [Launch ["pdfinfo"; p] 30]).
Proof.
  intros Hvalid Hrun. past_path_checks Hvalid. unfold exits in Hrun.
  launch Hrun. cbn [Z.eqb negb]. rewrite metadata_loop_entries. reflexivity.
Qed.

(** X10. Nothing in the metadata mapping is invented: after a successful
    run, every entry [key: value] comes from a line of stdout of the form
    [raw_key ":" raw_value] in which [raw_key] has no colon, [key] being
    [raw_key] stripped and [value] being [raw_value] stripped, so that a
    value keeps every colon after the first. *)
Theorem X10_metadata_provenance (w : World) (file_path p out err : string) :
  valid_pdf w file_path p ->
  subprocess_run w ["pdfinfo"; p] 30 = exits 0 out err ->
  ∃ metadata,
    outcome_of (extract_pdf_metadata w (VStr file_path))
    = Return (metadata_payload p metadata)
    ∧ ∀ key value, metadata !! key = Some value ->
        ∃ raw_key raw_value,
          raw_key +:+ ":" +:+ raw_value ∈ segments out
          ∧ PyStr.contains ":" raw_key = false
          ∧ key = PyStr.strip raw_key
          ∧ value = PyStr.strip raw_value.
Proof.
  intros Hvalid Hrun. eexists. split.
  - rewrite (extract_pdf_metadata_success w file_path p out err Hvalid Hrun).
    reflexivity.
  - intros key value Hlookup. apply lookup_foldl_store_elem in Hlookup.
    unfold spec_entries in Hlookup.
    apply list_elem_of_omap in Hlookup as (line & Hline & Hentry).
    rewrite spec_entry_strip in Hentry.
    destruct (PyStr.contains ":" line) eqn:Hcolon; [|discriminate].
    injection Hentry as <- <-.
    exists (before_first ":" line), (after_first ":" line).
    split; [|split; [apply contains_before_first | split; reflexivity]].
    change (before_first ":" line +:+ ":" +:+ after_first ":" line)
      with (before_first ":" line +:+ String ":" (after_first ":" line)).
    rewrite <- (cut_at_first _ _ Hcolon). exact Hline.
Qed.

Lemma X10_metadata_provenance_witness :
  ∃ metadata,
    outcome_of (extract_pdf_metadata
                  (tool_stub (exits 0 "Created: 10:20:30" ""))
                  (VStr "/doc.pdf"))
    = Return (metadata_payload "/doc.pdf" metadata)
    ∧ ∀ key value, metadata !! key = Some value ->
        ∃ raw_key raw_value,
          raw_key +:+ ":" +:+ raw_value ∈ segments "Created: 10:20:30"
          ∧ PyStr.contains ":" raw_key = false
          ∧ key = PyStr.strip raw_key
          ∧ value = PyStr.strip raw_value.
Proof.
  apply (X10_metadata_provenance (tool_stub (exits 0 "Created: 10:20:30" ""))
           "/doc.pdf" "/doc.pdf" "Created: 10:20:30" "").
  - apply valid_pdf_stub. reflexivity.
  - reflexivity.
Defined.

(** X11. After a successful run, every key and every value of the metadata
    mapping is stripped (stripping it again changes nothing), and no key
    contains a colon. *)
Theorem X11_metadata_trimmed (w : World) (file_path p out err : string) :
  valid_pdf w file_path p ->
  subprocess_run w ["pdfinfo"; p] 30 = exits 0 out err ->
  ∃ metadata,
    outcome_of (extract_pdf_metadata w (VStr file_path))
    = Return (metadata_payload p metadata)
    ∧ ∀ key value, metadata !! key = Some value ->
        trimmed key ∧ trimmed value ∧ PyStr.contains ":" key = false.
Proof.
  intros Hvalid Hrun. eexists. split.
  - rewrite (extract_pdf_metadata_success w file_path p out err Hvalid Hrun).
    reflexivity.
  - intros key value Hlookup. apply lookup_foldl_store_elem in Hlookup.
    apply list_elem_of_omap in Hlookup as (line & _ & Hentry).
    rewrite spec_entry_strip in Hentry.
    destruct (PyStr.contains ":" line); [|discriminate].
    injection Hentry as <- <-.
    split; [apply strip_trimmed | split; [apply strip_trimmed|]].
    apply contains_rstrip, contains_lstrip, contains_before_first.
Qed.

Lemma X11_metadata_trimmed_witness :
  ∃ metadata,
    outcome_of (extract_pdf_metadata
                  (tool_stub (exits 0 "  Page size :  595 x 842 pts " ""))
                  (VStr "/doc.pdf"))
    = Return (metadata_payload "/doc.pdf" metadata)
    ∧ ∀ key value, metadata !! key = Some value ->
        trimmed key ∧ trimmed value ∧ PyStr.contains ":" key = false.
Proof.
  apply (X11_metadata_trimmed
           (tool_stub (exits 0 "  Page size :  595 x 842 pts " ""))
           "/doc.pdf" "/doc.pdf" "  Page size :  595 x 842 pts " "").
  - apply valid_pdf_stub. reflexivity.
  - reflexivity.
Defined.

(** X12. After a successful run, the keys of the metadata mapping are
    exactly the stripped texts that stand before the first colon of some
    line of stdout: no line with a colon is lost. In particular the mapping
    is empty exactly when no line of stdout has a colon. *)
Theorem X12_metadata_keys (w : World) (file_path p out err : string) :
  valid_pdf w file_path p ->
  subprocess_run w ["pdfinfo"; p] 30 = exits 0 out err ->
  ∃ metadata,
    outcome_of (extract_pdf_metadata w (VStr file_path))
    = Return (metadata_payload p metadata)
    ∧ (∀ key, is_Some (metadata !! key)
              ↔ ∃ line, line ∈ segments out
                        ∧ PyStr.contains ":" line = true
                        ∧ key = PyStr.strip (before_first ":" line))
    ∧ (metadata = ∅
       ↔ ∀ line, line ∈ segments out -> PyStr.contains ":" line = false).
Proof.
  intros Hvalid Hrun.
  assert (∀ key, is_Some (foldl store ∅ (spec_entries out) !! key)
              ↔ ∃ line, line ∈ segments out
                        ∧ PyStr.contains ":" line = true
                        ∧ key = PyStr.strip (before_first ":" line)) as Hdom.
  { intros key. rewrite lookup_foldl_store_is_Some. unfold spec_entries. split.
    - intros (v & Hin).
      apply list_elem_of_omap in Hin as (line & Hline & Hentry).
      rewrite spec_entry_strip in Hentry.
      destruct (PyStr.contains ":" line) eqn:Hcolon; [|discriminate].
      injection Hentry as <- <-. exists line. auto.
    - intros (line & Hline & Hcolon & ->). eexists.
      apply list_elem_of_omap. exists line. split; [exact Hline|].
      rewrite spec_entry_strip, Hcolon. reflexivity. }
  eexists. split; [|split].
  - rewrite (extract_pdf_metadata_success w file_path p out err Hvalid Hrun).
    reflexivity.
  - exact Hdom.
  - split.
    + intros Hempty line Hline.
      destruct (PyStr.contains ":" line) eqn:Hcolon; [|reflexivity].
      assert (is_Some (foldl store ∅ (spec_entries out)
                         !! PyStr.strip (before_first ":" line))) as [v Hv]
        by (apply Hdom; eauto).
      rewrite Hempty, lookup_empty in Hv. discriminate.
    + intros Hnone. apply map_empty. intros key.
      apply eq_None_not_Some. rewrite Hdom.
      intros (line & Hline & Hcolon & _).
      rewrite (Hnone line Hline) in Hcolon. discriminate.
Qed.

Lemma X12_metadata_keys_witness :
  ∃ metadata,
    outcome_of (extract_pdf_metadata (tool_stub (exits 0 "no metadata here" ""))
                  (VStr "/doc.pdf"))
    = Return (metadata_payload "/doc.pdf" metadata)
    ∧ (∀ key, is_Some (metadata !! key)
              ↔ ∃ line, line ∈ segments "no metadata here"
                        ∧ PyStr.contains ":" line = true
                        ∧ key = PyStr.strip (before_first ":" line))
    ∧ (metadata = ∅
       ↔ ∀ line, line ∈ segments "no metadata here" ->
                 PyStr.contains ":" line = false).
Proof.
  apply (X12_metadata_keys (tool_stub (exits 0 "no metadata here" ""))
           "/doc.pdf" "/doc.pdf" "no metadata here" "").
  - apply valid_pdf_stub. reflexivity.
  - reflexivity.
Defined.

(** ** More on page-range extraction *)

(** X13. On a valid path and a range [1 <= start_page <= end_page], when
    the process exits 0, [extract_pdf_section] launches
    [pdftotext -f <start> -l <end> <path> -] once with a 60 second timeout
    and returns stdout as it is, never truncated, under ["text"], the range
    as ["<start>-<end>"] under ["pages"], and no ["lines"] entry. *)
Theorem X13_section_success (w : World) (file_path p out err : string)
    (start_page end_page : Z) :
  valid_pdf w file_path p ->
  1 <= start_page <= end_page ->
  subprocess_run w ["pdftotext"; "-f"; pretty start_page; "-l";
                    pretty end_page; p; "-"] 60 = exits 0 out err ->
  ∃ d,
    extract_pdf_section w (VStr file_path) (VInt start_page) (VInt end_page)
    = (Return d,
       [Launch ["pdftotext"; "-f"; pretty start_page; "-l"; pretty end_page;
                p; "-"] 60])
    ∧ d !! "success" = Some (Scalar (VBool true))
    ∧ d !! "file_path" = Some (Scalar (VStr p))
    ∧ d !! "pages"
      = Some (Scalar (VStr (pretty start_page +:+ "-" +:+ pretty end_page)))
    ∧ d !! "text" = Some (Scalar (VStr out))
    ∧ d !! "lines" = None.
Proof.
  intros Hvalid Hpages Hrun. past_path_checks Hvalid.
  unfold py_lt. cbn [as_number]. rewrite bind_lift_return.
  destruct (Z.ltb_spec start_page 1); [lia|]. rewrite bind_lift_return.
  destruct (Z.ltb_spec end_page start_page); [lia|].
  cbn [py_str]. unfold exits in Hrun. launch Hrun. cbn [Z.eqb negb].
  eexists. split; [reflexivity|]. repeat split; reflexivity.
Qed.

Lemma X13_section_success_witness :
  ∃ d,
    extract_pdf_section (tool_stub (exits 0 abc "")) (VStr "/doc.pdf")
      (VInt 3) (VInt 3)
    = (Return d,
       [Launch ["pdftotext"; "-f"; "3"; "-l"; "3"; "/doc.pdf"; "-"] 60])
    ∧ d !! "success" = Some (Scalar (VBool true))
    ∧ d !! "file_path" = Some (Scalar (VStr "/doc.pdf"))
    ∧ d !! "pages" = Some (Scalar (VStr "3-3"))
    ∧ d !! "text" = Some (Scalar (VStr abc))
    ∧ d !! "lines" = None.
Proof.
  apply (X13_section_success (tool_stub (exits 0 abc "")) "/doc.pdf"
           "/doc.pdf" abc "" 3 3).
  - apply valid_pdf_stub. reflexivity.
  - lia.
  - reflexivity.
Defined.

(** X14. A page argument that is not a number is not answered with an
    error dictionary: on a valid path, [extract_pdf_section] raises
    Python's [TypeError] for the failed comparison and launches nothing,
    for a bad [start_page], and for a bad [end_page] once [start_page] is a
    number that is at least 1. *)
Theorem X14_page_of_wrong_type (w : World) (file_path p : string)
    (start_page end_page : value) :
  valid_pdf w file_path p ->
  (as_number start_page = None ->
   extract_pdf_section w (VStr file_path) start_page end_page
   = (Raise (Exn TypeError
               ("'<' not supported between instances of '"
                +:+ type_name start_page +:+ "' and 'int'")), []))
  ∧ (∀ s, as_number start_page = Some s -> 1 <= s ->
       as_number end_page = None ->
       extract_pdf_section w (VStr file_path) start_page end_page
       = (Raise (Exn TypeError
                   ("'<' not supported between instances of '"
                    +:+ type_name end_page +:+ "' and '"
                    +:+ type_name start_page +:+ "'")), [])).
Proof.
  intros Hvalid. split.
  - intros Hs. past_path_checks Hvalid.
    destruct start_page; try discriminate Hs; reflexivity.
  - intros s Hs Hone He. past_path_checks Hvalid.
    destruct end_page; try discriminate He;
      destruct start_page as [|[|]|z|]; try discriminate Hs;
      injection Hs as <-; try lia;
      unfold py_lt; cbn [as_number]; rewrite bind_lift_return;
      try (destruct (Z.ltb_spec z 1); [lia|]); reflexivity.
Qed.

Lemma X14_page_of_wrong_type_witness :
  extract_pdf_section (tool_stub (exits 0 abc "")) (VStr "/doc.pdf")
    (VStr "1") (VInt 2)
  = (Raise (Exn TypeError
              "'<' not supported between instances of 'str' and 'int'"), []).
Proof.
  refine (proj1 (X14_page_of_wrong_type (tool_stub (exits 0 abc ""))
                   "/doc.pdf" "/doc.pdf" (VStr "1") (VInt 2) _) eq_refl).
  apply valid_pdf_stub. reflexivity.
Defined.

(** ** More on path validation *)

(** X15. The path is resolved and tested outside any [try]: when resolving
    it raises, or when the existence test raises, each operation raises
    that same exception, unwrapped, and launches nothing. *)
Theorem X15_path_errors_escape (w : World) (file_path : string) (e : exn)
    (a b : value) :
  (resolve w file_path = Raise e
   ∨ ∃ p, resolve w file_path = Return p ∧ path_exists w p = Raise e) ->
  extract_pdf_text w (VStr file_path) a = (Raise e, [])
  ∧ extract_pdf_metadata w (VStr file_path) = (Raise e, [])
  ∧ extract_pdf_section w (VStr file_path) a b = (Raise e, []).
Proof.
  unfold extract_pdf_text, extract_pdf_metadata, extract_pdf_section, resolved.
  intros [Hr | (p & Hr & He)]; rewrite Hr.
  - auto.
  - rewrite !bind_lift_return, He. auto.
Qed.

Lemma X15_path_errors_escape_witness :
  extract_pdf_text locked_disk (VStr "/root/doc.pdf") VNone
  = (Raise (Exn OtherException "Permission denied"), [])
  ∧ extract_pdf_metadata locked_disk (VStr "/root/doc.pdf")
    = (Raise (Exn OtherException "Permission denied"), [])
  ∧ extract_pdf_section locked_disk (VStr "/root/doc.pdf") VNone (VInt 1)
    = (Raise (Exn OtherException "Permission denied"), []).
Proof.
  apply (X15_path_errors_escape locked_disk "/root/doc.pdf"
           (Exn OtherException "Permission denied") VNone (VInt 1)).
  right. exists "/root/doc.pdf". split; reflexivity.
Defined.

Lemma len_cons (a : ascii) (s : string) :
  PyStr.len (String a s) = PyStr.len s + 1.
Proof. unfold PyStr.len. cbn [String.length]. lia. Qed.

Lemma len_nonneg (s : string) : 0 <= PyStr.len s.
Proof. unfold PyStr.len. lia. Qed.

Lemma len_append (x y : string) :
  PyStr.len (x +:+ y) = PyStr.len x + PyStr.len y.
Proof.
  induction x as [|a x IH]; [reflexivity|].
  rewrite append_cons, !len_cons, IH. lia.
Qed.

Lemma len_pos (s : string) : s ≠ "" -> 0 < PyStr.len s.
Proof.
  destruct s as [|a s]; [congruence|]. intros _.
  rewrite len_cons. pose proof (len_nonneg s). lia.
Qed.

Lemma rfind_absent (c : ascii) (s : string) :
  PyStr.contains c s = false -> PyStr.rfind c s = -1.
Proof.
  induction s as [|a s IH]; [reflexivity|].
  cbn [PyStr.contains PyStr.rfind].
  destruct (decide (a = c)); [discriminate|].
  intros H. rewrite (IH H). reflexivity.
Qed.

(** The last [c] of a text is the one no other [c] follows. *)
Lemma rfind_last (c : ascii) (x y : string) :
  PyStr.contains c y = false ->
  PyStr.rfind c (x +:+ String c y) = PyStr.len x.
Proof.
  intros Hy. induction x as [|a x IH].
  - change ("" +:+ String c y) with (String c y). cbn [PyStr.rfind].
    rewrite (rfind_absent _ _ Hy). cbn [Z.leb Z.compare].
    rewrite decide_True by reflexivity. reflexivity.
  - rewrite append_cons. cbn [PyStr.rfind]. rewrite IH, len_cons.
    pose proof (len_nonneg x).
    destruct (Z.leb_spec 0 (PyStr.len x)); [reflexivity | lia].
Qed.

Lemma drop_append (x y : string) :
  PyStr.drop (Z.to_nat (PyStr.len x)) (x +:+ y) = y.
Proof.
  unfold PyStr.len. rewrite Nat2Z.id.
  induction x as [|a x IH]; [destruct y; reflexivity|].
  rewrite append_cons. exact IH.
Qed.

Lemma contains_append (c : ascii) (x y : string) :
  PyStr.contains c (x +:+ y) = PyStr.contains c x || PyStr.contains c y.
Proof.
  induction x as [|a x IH]; [reflexivity|].
  rewrite append_cons. cbn [PyStr.contains].
  destruct (decide (a = c)); [reflexivity | exact IH].
Qed.

Lemma lower_append (x y : string) :
  PyStr.lower (x +:+ y) = PyStr.lower x +:+ PyStr.lower y.
Proof.
  induction x as [|a x IH]; [reflexivity|].
  rewrite append_cons. cbn [PyStr.lower]. rewrite append_cons, IH.
  reflexivity.
Qed.

Lemma append_assoc (x y z : string) : (x +:+ y) +:+ z = x +:+ y +:+ z.
Proof.
  induction x as [|a x IH]; [reflexivity|].
  rewrite !append_cons, IH. reflexivity.
Qed.

Lemma name_of_child (dir base : string) :
  PyStr.contains "/" base = false ->
  PyPath.name (dir +:+ "/" +:+ base) = base.
Proof.
  intros Hbase. unfold PyPath.name.
  change (dir +:+ "/" +:+ base) with (dir +:+ String "/" base).
  rewrite (rfind_last _ _ _ Hbase).
  change (dir +:+ String "/" base) with (dir +:+ "/" +:+ base).
  replace (PyStr.len dir + 1) with (PyStr.len (dir +:+ "/"))
    by (rewrite len_append; reflexivity).
  rewrite <- append_assoc. apply drop_append.
Qed.

(** The suffix of [dir/stem.ext], for an extension without dot or slash
    and a stem without slash: the extension with its dot, unless the stem
    is empty. *)
Lemma suffix_of_child (dir stem ext : string) :
  PyStr.contains "/" stem = false ->
  PyStr.contains "/" ext = false ->
  PyStr.contains "." ext = false ->
  ext ≠ "" ->
  PyPath.suffix (dir +:+ "/" +:+ stem +:+ "." +:+ ext)
  = if decide (stem = "") then "" else "." +:+ ext.
Proof.
  intros Hstem Hslash Hdot Hext. unfold PyPath.suffix.
  rewrite name_of_child
    by (rewrite !contains_append, Hstem, Hslash; reflexivity).
  change (stem +:+ "." +:+ ext) with (stem +:+ String "." ext).
  rewrite (rfind_last "." stem ext Hdot), len_append, len_cons, drop_append.
  pose proof (len_pos ext Hext) as Hlen.
  destruct (decide (stem = "")) as [-> | Hne]; [reflexivity|].
  pose proof (len_pos stem Hne).
  destruct (Z.ltb_spec 0 (PyStr.len stem)); [|lia].
  destruct (Z.ltb_spec (PyStr.len stem)
              (PyStr.len stem + (PyStr.len ext + 1) - 1)); [|lia].
  reflexivity.
Qed.

Lemma lower_char_letter (a b : ascii) :
  b = "p"%char ∨ b = "d"%char ∨ b = "f"%char ->
  PyStr.lower_char a = b ->
  a = b ∨ a = ascii_of_nat (nat_of_ascii b - 32).
Proof.
  intros [-> | [-> | ->]];
    destruct a as [[] [] [] [] [] [] [] []]; vm_compute;
    intros H; try discriminate H; auto.
Qed.

(** Lower-casing gives "pdf" for the eight spellings and for nothing
    else. *)
Lemma lower_is_pdf (ext : string) :
  PyStr.lower ext = "pdf" ↔ ext ∈ pdf_spellings.
Proof.
  split.
  - destruct ext as [|a [|b [|c [|? ?]]]]; try discriminate.
    cbn [PyStr.lower]. intros [= Ha Hb Hc].
    apply lower_char_letter in Ha; [|auto].
    apply lower_char_letter in Hb; [|auto].
    apply lower_char_letter in Hc; [|auto].
    unfold pdf_spellings. rewrite !elem_of_cons.
    destruct Ha as [-> | ->], Hb as [-> | ->], Hc as [-> | ->];
      vm_compute; tauto.
  - unfold pdf_spellings. rewrite !elem_of_cons, elem_of_nil.
    intros [-> | [-> | [-> | [-> | [-> | [-> | [-> | [-> | []]]]]]]]];
      reflexivity.
Qed.

(** X16. Which existing files pass the suffix check. For a resolved path
    [dir/stem.ext] whose extension has no dot and no slash, and a page
    range [1 <= start_page <= end_page]: when the stem is not empty and
    [ext] is one of the eight upper and lower case spellings of "pdf", each
    of the three operations goes on to launch its process on that path;
    in every other case (another extension, or a file named just [.pdf])
    all three answer ["File must be a PDF"] and launch nothing. *)
Theorem X16_accepted_names (w : World) (file_path dir stem ext : string)
    (max_lines : value) (start_page end_page : Z) :
  let p := dir +:+ "/" +:+ stem +:+ "." +:+ ext in
  resolve w file_path = Return p ->
  path_exists w p = Return true ->
  PyStr.contains "/" stem = false ->
  PyStr.contains "/" ext = false ->
  PyStr.contains "." ext = false ->
  ext ≠ "" ->
  1 <= start_page <= end_page ->
  (stem ≠ "" ∧ ext ∈ pdf_spellings ->
   snd (extract_pdf_text w (VStr file_path) max_lines)
   = [Launch ["pdftotext"; p; "-"] 60]
   ∧ snd (extract_pdf_metadata w (VStr file_path))
     = [Launch ["pdfinfo"; p] 30]
   ∧ snd (extract_pdf_section w (VStr file_path) (VInt start_page)
            (VInt end_page))
     = [Launch ["pdftotext"; "-f"; pretty start_page; "-l";
                pretty end_page; p; "-"] 60])
  ∧ (¬ (stem ≠ "" ∧ ext ∈ pdf_spellings) ->
     extract_pdf_text w (VStr file_path) max_lines
     = (Return {[ "error" := Scalar (VStr "File must be a PDF") ]}, [])
     ∧ extract_pdf_metadata w (VStr file_path)
       = (Return {[ "error" := Scalar (VStr "File must be a PDF") ]}, [])
     ∧ extract_pdf_section w (VStr file_path) (VInt start_page)
         (VInt end_page)
       = (Return {[ "error" := Scalar (VStr "File must be a PDF") ]}, [])).
Proof.
  intros p Hr He Hstem Hslash Hdot Hext Hpages.
  assert (PyStr.lower (PyPath.suffix p) = ".pdf"
          ↔ stem ≠ "" ∧ ext ∈ pdf_spellings) as Hsuffix.
  { rewrite <- lower_is_pdf.
    unfold p. rewrite (suffix_of_child dir stem ext Hstem Hslash Hdot Hext).
    destruct (decide (stem = "")) as [-> | Hne].
    - split; [discriminate | intros [H _]; congruence].
    - rewrite lower_append. change (PyStr.lower ".") with ".". split.
      + change ("." +:+ PyStr.lower ext) with (String "." (PyStr.lower ext)).
        intros [= H]. auto.
      + intros [_ ->]. reflexivity. }
  split.
  - intros Hyes. apply Hsuffix in Hyes.
    unfold extract_pdf_text, extract_pdf_metadata, extract_pdf_section,
      resolved, run.
    rewrite Hr, !bind_lift_return, He, !bind_lift_return. cbn [negb].
    rewrite (bool_decide_true _ Hyes). cbn [negb].
    unfold py_lt. cbn [as_number py_str]. rewrite bind_lift_return.
    destruct (Z.ltb_spec start_page 1); [lia|]. rewrite bind_lift_return.
    destruct (Z.ltb_spec end_page start_page); [lia|].
    split; [|split]; repeat step; try rewrite metadata_loop_entries;
      reflexivity.
  - intros Hno. rewrite <- Hsuffix in Hno.
    unfold extract_pdf_text, extract_pdf_metadata, extract_pdf_section, resolved.
    rewrite Hr, !bind_lift_return, He, !bind_lift_return. cbn [negb].
    rewrite (bool_decide_false _ Hno). cbn [negb]. auto.
Qed.

Lemma X16_accepted_names_witness :
  (snd (extract_pdf_text (tool_stub (exits 0 "text" ""))
          (VStr "/home/me/Doc.v2.PDF") VNone)
   = [Launch ["pdftotext"; "/home/me/Doc.v2.PDF"; "-"] 60]
   ∧ snd (extract_pdf_metadata (tool_stub (exits 0 "text" ""))
            (VStr "/home/me/Doc.v2.PDF"))
     = [Launch ["pdfinfo"; "/home/me/Doc.v2.PDF"] 30]
   ∧ snd (extract_pdf_section (tool_stub (exits 0 "text" ""))
            (VStr "/home/me/Doc.v2.PDF") (VInt 1) (VInt 2))
     = [Launch ["pdftotext"; "-f"; "1"; "-l"; "2"; "/home/me/Doc.v2.PDF"; "-"]
          60])
  ∧ (extract_pdf_text (tool_stub (exits 0 "text" "")) (VStr "/home/me/.pdf")
       VNone
     = (Return {[ "error" := Scalar (VStr "File must be a PDF") ]}, [])
     ∧ extract_pdf_metadata (tool_stub (exits 0 "text" ""))
         (VStr "/home/me/.pdf")
       = (Return {[ "error" := Scalar (VStr "File must be a PDF") ]}, [])
     ∧ extract_pdf_section (tool_stub (exits 0 "text" ""))
         (VStr "/home/me/.pdf") (VInt 1) (VInt 2)
       = (Return {[ "error" := Scalar (VStr "File must be a PDF") ]}, [])).
Proof.
  split.
  - refine (proj1 (X16_accepted_names (tool_stub (exits 0 "text" ""))
                     "/home/me/Doc.v2.PDF" "/home/me" "Doc.v2" "PDF" VNone 1 2
                     eq_refl eq_refl eq_refl eq_refl eq_refl _ _) _).
    + discriminate.
    + lia.
    + split; [discriminate|]. apply lower_is_pdf. reflexivity.
  - refine (proj2 (X16_accepted_names (tool_stub (exits 0 "text" ""))
                     "/home/me/.pdf" "/home/me" "" "pdf" VNone 1 2
                     eq_refl eq_refl eq_refl eq_refl eq_refl _ _) _).
    + discriminate.
    + lia.
    + intros [H _]. apply H. reflexivity.
Defined.
